(** * Asset grouping service: rule evaluation and re-grouping engine

    A shallow embedding of [src/models/schemas.py] and
    [src/services/grouping.py], followed by the properties of the
    evaluator and of the grouping store.

    Conventions of the embedding.
    - A pydantic model is a record; each model lives in a module of its
      own so that the fields keep the names they have in the source.
    - A [datetime] is an integer count of microseconds ([Z]).
    - A [str] is a [string], a sequence of characters that are compared one
      by one.
    - A Python [dict] is an association list in insertion order, with
      unique keys; assigning to a key that is present keeps its place.
    - A raised exception is a value of [result]; the store keeps whatever
      was written before the exception was raised.
    - [uuid.uuid4()] and [datetime.now(UTC)] read the environment: the
      n-th call returns [uuid4_at n] and [now_at n]. *)

From Stdlib Require Import String Ascii ZArith List Bool Lia PeanoNat.
From Stdlib Require Import Permutation.
Import ListNotations.
Local Open Scope string_scope.
Local Open Scope list_scope.

(** ** Python values that the engine handles *)

(** Exceptions the engine can raise. *)
Inductive PyExc : Type :=
| TypeError
| ValidationError.

Inductive result (A : Type) : Type :=
| Ok (a : A)
| Raise (e : PyExc).

Arguments Ok {A} a.
Arguments Raise {A} e.

Definition rbind {A B : Type} (r : result A) (k : A -> result B) : result B :=
  match r with
  | Ok a => k a
  | Raise e => Raise e
  end.

(** Truth value of an [Optional[str]]: [None] and the empty string are
    false. *)
Definition truthy (o : option string) : bool :=
  match o with
  | Some s => negb (s =? "")
  | None => false
  end.

(** [s == o] for a [str] on the left and an [Optional[str]] on the right. *)
Definition py_eq (s : string) (o : option string) : bool :=
  match o with
  | Some v => s =? v
  | None => false
  end.

Fixpoint starts_with (p s : string) : bool :=
  match p, s with
  | EmptyString, _ => true
  | String a p', String b s' => if Ascii.eqb a b then starts_with p' s' else false
  | String _ _, EmptyString => false
  end.

(** [needle in hay] for two [str]. *)
Fixpoint str_contains (needle hay : string) : bool :=
  starts_with needle hay ||
  match hay with
  | EmptyString => false
  | String _ hay' => str_contains needle hay'
  end.

(** [needle in hay] where the left operand is an [Optional[str]]: Python
    raises [TypeError] for [None in "..."]. *)
Definition py_in (needle : option string) (hay : string) : result bool :=
  match needle with
  | Some n => Ok (str_contains n hay)
  | None => Raise TypeError
  end.

(** The builtin [all] over a generator: stops at the first false element,
    and an exception raised by an element propagates. *)
Fixpoint py_all {A : Type} (f : A -> result bool) (l : list A) : result bool :=
  match l with
  | [] => Ok true
  | x :: tl =>
      match f x with
      | Ok true => py_all f tl
      | Ok false => Ok false
      | Raise e => Raise e
      end
  end.

(** ** Dictionaries *)

Definition dict (V : Type) : Type := list (string * V).

Fixpoint dict_get {V : Type} (k : string) (d : dict V) : option V :=
  match d with
  | [] => None
  | (k', v) :: tl => if k' =? k then Some v else dict_get k tl
  end.

(** [k in d] *)
Definition dict_contains {V : Type} (k : string) (d : dict V) : bool :=
  match dict_get k d with
  | Some _ => true
  | None => false
  end.

(** [d[k] = v] *)
Fixpoint dict_set {V : Type} (k : string) (v : V) (d : dict V) : dict V :=
  match d with
  | [] => [(k, v)]
  | (k', v') :: tl => if k' =? k then (k, v) :: tl else (k', v') :: dict_set k v tl
  end.

(** [d.values()] and [d.keys()], in insertion order. *)
Definition dict_values {V : Type} (d : dict V) : list V := map snd d.
Definition dict_keys {V : Type} (d : dict V) : list string := map fst d.

(** [d.update(u)] *)
Definition dict_update {V : Type} (d u : dict V) : dict V :=
  fold_left (fun acc kv => dict_set (fst kv) (snd kv) acc) u d.

Definition str_mem (k : string) (l : list string) : bool :=
  existsb (String.eqb k) l.

(** ** The data model ([src/models/schemas.py]) *)

Inductive Operator : Type :=
| EQUALS
| CONTAINS
| EXISTS.

Module Tag.
Record t : Type := Build { key : string; value : string }.
End Tag.

Module CloudAccount.
Record t : Type := Build { id : string; name : string }.
End CloudAccount.

Module Asset.
Record t : Type := Build {
  name : string;
  type : string;
  tags : list Tag.t;
  cloud_account : CloudAccount.t;
  owner_id : string;
  region : string;
  id : option string;
  group_name : option string;
  created_at : option Z;
  updated_at : option Z
}.

Definition set_group_name (g : option string) (a : t) : t :=
  Build (name a) (type a) (tags a) (cloud_account a) (owner_id a) (region a)
        (id a) g (created_at a) (updated_at a).

Definition set_updated_at (u : option Z) (a : t) : t :=
  Build (name a) (type a) (tags a) (cloud_account a) (owner_id a) (region a)
        (id a) (group_name a) (created_at a) u.
End Asset.

Module GroupingCondition.
Record t : Type := Build {
  field : string;
  operator : Operator;
  value : option string;
  tag_key : option string;
  tag_value : option string
}.
End GroupingCondition.

Module GroupingRule.
(** [fields_set] is pydantic's [model_fields_set]: the names of the fields
    that were given when the object was built. *)
Record t : Type := Build {
  group_name : string;
  conditions : list GroupingCondition.t;
  description : option string;
  id : option string;
  created_at : option Z;
  updated_at : option Z;
  fields_set : list string
}.
End GroupingRule.

(** Values found in the dictionaries that [model_dump] returns and that a
    model constructor receives. A nested model is kept as its record: the
    constructor rebuilds exactly the record that was dumped. *)
Inductive PyVal : Type :=
| PyNone
| PyStr (s : string)
| PyDatetime (t : Z)
| PyTags (l : list Tag.t)
| PyAccount (c : CloudAccount.t)
| PyConditions (l : list GroupingCondition.t).

Definition py_opt_str (o : option string) : PyVal :=
  match o with Some s => PyStr s | None => PyNone end.

Definition py_opt_datetime (o : option Z) : PyVal :=
  match o with Some t => PyDatetime t | None => PyNone end.

(** One [DICT_MERGE] step of a call that unpacks several dictionaries into
    keyword arguments: a key that is already among the collected keyword
    arguments raises [TypeError]. *)
Fixpoint kwargs_merge (acc extra : dict PyVal) : result (dict PyVal) :=
  match extra with
  | [] => Ok acc
  | (k, v) :: tl =>
      if dict_contains k acc then Raise TypeError
      else kwargs_merge (acc ++ [(k, v)]) tl
  end.

(** *** Field readers of the model constructors *)

Definition req_str (k : string) (kw : dict PyVal) : result string :=
  match dict_get k kw with
  | Some (PyStr s) => Ok s
  | _ => Raise ValidationError
  end.

Definition opt_str (k : string) (kw : dict PyVal) : result (option string) :=
  match dict_get k kw with
  | None | Some PyNone => Ok None
  | Some (PyStr s) => Ok (Some s)
  | Some _ => Raise ValidationError
  end.

Definition opt_datetime (k : string) (kw : dict PyVal) : result (option Z) :=
  match dict_get k kw with
  | None | Some PyNone => Ok None
  | Some (PyDatetime t) => Ok (Some t)
  | Some _ => Raise ValidationError
  end.

Definition req_tags (k : string) (kw : dict PyVal) : result (list Tag.t) :=
  match dict_get k kw with
  | Some (PyTags l) => Ok l
  | _ => Raise ValidationError
  end.

Definition req_account (k : string) (kw : dict PyVal) : result CloudAccount.t :=
  match dict_get k kw with
  | Some (PyAccount c) => Ok c
  | _ => Raise ValidationError
  end.

Definition req_conditions (k : string) (kw : dict PyVal)
  : result (list GroupingCondition.t) :=
  match dict_get k kw with
  | Some (PyConditions l) => Ok l
  | _ => Raise ValidationError
  end.

(** *** [Asset] *)

Definition Asset_fields (a : Asset.t) : dict PyVal :=
  [ ("name", PyStr (Asset.name a));
    ("type", PyStr (Asset.type a));
    ("tags", PyTags (Asset.tags a));
    ("cloud_account", PyAccount (Asset.cloud_account a));
    ("owner_id", PyStr (Asset.owner_id a));
    ("region", PyStr (Asset.region a));
    ("id", py_opt_str (Asset.id a));
    ("group_name", py_opt_str (Asset.group_name a));
    ("created_at", py_opt_datetime (Asset.created_at a));
    ("updated_at", py_opt_datetime (Asset.updated_at a)) ].

(** [a.model_dump(exclude=...)] *)
Definition Asset_model_dump (exclude : list string) (a : Asset.t) : dict PyVal :=
  filter (fun kv => negb (str_mem (fst kv) exclude)) (Asset_fields a).

(** The constructor [Asset], called with the keyword arguments [kw]. *)
Definition Asset_init (kw : dict PyVal) : result Asset.t :=
  rbind (req_str "name" kw) (fun name =>
  rbind (req_str "type" kw) (fun type =>
  rbind (req_tags "tags" kw) (fun tags =>
  rbind (req_account "cloud_account" kw) (fun cloud_account =>
  rbind (req_str "owner_id" kw) (fun owner_id =>
  rbind (req_str "region" kw) (fun region =>
  rbind (opt_str "id" kw) (fun id =>
  rbind (opt_str "group_name" kw) (fun group_name =>
  rbind (opt_datetime "created_at" kw) (fun created_at =>
  rbind (opt_datetime "updated_at" kw) (fun updated_at =>
  Ok (Asset.Build name type tags cloud_account owner_id region
                  id group_name created_at updated_at))))))))))).

(** *** [GroupingRule] *)

Definition GroupingRule_field_names : list string :=
  ["group_name"; "conditions"; "description"; "id"; "created_at"; "updated_at"].

Definition GroupingRule_fields (r : GroupingRule.t) : dict PyVal :=
  [ ("group_name", PyStr (GroupingRule.group_name r));
    ("conditions", PyConditions (GroupingRule.conditions r));
    ("description", py_opt_str (GroupingRule.description r));
    ("id", py_opt_str (GroupingRule.id r));
    ("created_at", py_opt_datetime (GroupingRule.created_at r));
    ("updated_at", py_opt_datetime (GroupingRule.updated_at r)) ].

(** [r.model_dump(exclude=..., exclude_unset=...)] *)
Definition GroupingRule_model_dump (exclude : list string) (exclude_unset : bool)
  (r : GroupingRule.t) : dict PyVal :=
  filter (fun kv => negb (str_mem (fst kv) exclude)
                    && (negb exclude_unset
                        || str_mem (fst kv) (GroupingRule.fields_set r)))
         (GroupingRule_fields r).

(** The constructor [GroupingRule], called with the keyword arguments [kw]. *)
Definition GroupingRule_init (kw : dict PyVal) : result GroupingRule.t :=
  rbind (req_str "group_name" kw) (fun group_name =>
  rbind (req_conditions "conditions" kw) (fun conditions =>
  rbind (opt_str "description" kw) (fun description =>
  rbind (opt_str "id" kw) (fun id =>
  rbind (opt_datetime "created_at" kw) (fun created_at =>
  rbind (opt_datetime "updated_at" kw) (fun updated_at =>
  Ok (GroupingRule.Build group_name conditions description id created_at updated_at
        (filter (fun k => dict_contains k kw) GroupingRule_field_names)))))))).

(** ** The rule evaluator *)

(** [GroupingService._evaluate_condition] *)
Definition _evaluate_condition (asset : Asset.t) (condition : GroupingCondition.t)
  : result bool :=
  if GroupingCondition.field condition =? "type" then
    match GroupingCondition.operator condition with
    | EQUALS => Ok (py_eq (Asset.type asset) (GroupingCondition.value condition))
    | CONTAINS => py_in (GroupingCondition.value condition) (Asset.type asset)
    | EXISTS => Ok false
    end
  else if GroupingCondition.field condition =? "name" then
    match GroupingCondition.operator condition with
    | EQUALS => Ok (py_eq (Asset.name asset) (GroupingCondition.value condition))
    | CONTAINS => py_in (GroupingCondition.value condition) (Asset.name asset)
    | EXISTS => Ok false
    end
  else if GroupingCondition.field condition =? "tag" then
    match GroupingCondition.operator condition with
    | EXISTS =>
        Ok (existsb (fun tag => py_eq (Tag.key tag) (GroupingCondition.tag_key condition))
                    (Asset.tags asset))
    | EQUALS =>
        Ok (existsb (fun tag =>
                       py_eq (Tag.key tag) (GroupingCondition.tag_key condition)
                       && py_eq (Tag.value tag) (GroupingCondition.tag_value condition))
                    (Asset.tags asset))
    | CONTAINS => Ok false
    end
  else Ok false.

(** The test of one rule in [_evaluate_rules]:
    [all(self._evaluate_condition(asset, c) for c in rule.conditions)]. *)
Definition rule_matches (asset : Asset.t) (rule : GroupingRule.t) : result bool :=
  py_all (_evaluate_condition asset) (GroupingRule.conditions rule).

(** The loop of [_evaluate_rules] over [self.rules.values()]. *)
Fixpoint evaluate_rules_loop (rules : list GroupingRule.t) (asset : Asset.t)
  : result (option string) :=
  match rules with
  | [] => Ok None
  | rule :: rest =>
      match rule_matches asset rule with
      | Ok true => Ok (Some (GroupingRule.group_name rule))
      | Ok false => evaluate_rules_loop rest asset
      | Raise e => Raise e
      end
  end.

(** [GroupingService._evaluate_rules], on the rule mapping of the service. *)
Definition _evaluate_rules (rules : dict GroupingRule.t) (asset : Asset.t)
  : result (option string) :=
  evaluate_rules_loop (dict_values rules) asset.

(** ** The grouping store ([src/services/grouping.py]) *)

(** The two mappings of a [GroupingService] instance. *)
Record GroupingService : Type := Build_GroupingService {
  assets : dict Asset.t;
  rules : dict GroupingRule.t
}.

(** The service together with the number of clock readings and of
    identifiers drawn so far. *)
Record World : Type := Build_World {
  service : GroupingService;
  clock_reads : nat;
  uuid_reads : nat
}.

(** [GroupingService.__init__] *)
Definition init_service : GroupingService := Build_GroupingService [] [].

Definition init_world : World := Build_World init_service 0 0.

(** Computations that read and write the world and may raise. A raised
    exception leaves the world as it was when it was raised. *)
Definition M (A : Type) : Type := World -> World * result A.

Definition ret {A : Type} (a : A) : M A := fun w => (w, Ok a).

Definition bind {A B : Type} (m : M A) (k : A -> M B) : M B :=
  fun w =>
    match m w with
    | (w', Ok a) => k a w'
    | (w', Raise e) => (w', Raise e)
    end.

Definition lift {A : Type} (r : result A) : M A := fun w => (w, r).

Declare Scope service_scope.
Delimit Scope service_scope with service.
Notation "x <- c1 ;; c2" := (bind c1 (fun x => c2))
  (at level 61, c1 at next level, right associativity) : service_scope.
Notation "c1 ;; c2" := (bind c1 (fun _ => c2))
  (at level 61, right associativity) : service_scope.
Local Open Scope service_scope.

Definition get_self : M GroupingService := fun w => (w, Ok (service w)).

(** [self.assets[k] = a] *)
Definition set_asset (k : string) (a : Asset.t) : M unit :=
  fun w =>
    (Build_World
       (Build_GroupingService (dict_set k a (assets (service w))) (rules (service w)))
       (clock_reads w) (uuid_reads w),
     Ok tt).

(** [self.rules[k] = r] *)
Definition set_rule (k : string) (r : GroupingRule.t) : M unit :=
  fun w =>
    (Build_World
       (Build_GroupingService (assets (service w)) (dict_set k r (rules (service w))))
       (clock_reads w) (uuid_reads w),
     Ok tt).

Section Service.

(** The values returned by the successive calls of [datetime.now(UTC)] and
    of [str(uuid.uuid4())]. *)
Variable now_at : nat -> Z.
Variable uuid4_at : nat -> string.

Definition datetime_now : M Z :=
  fun w =>
    (Build_World (service w) (S (clock_reads w)) (uuid_reads w),
     Ok (now_at (clock_reads w))).

Definition uuid4 : M string :=
  fun w =>
    (Build_World (service w) (clock_reads w) (S (uuid_reads w)),
     Ok (uuid4_at (uuid_reads w))).

(** The body of the loop of [_process_existing_assets] for one asset; [n]
    counts the clock readings. *)
Definition process_asset (rs : dict GroupingRule.t) (n : nat) (asset : Asset.t)
  : result (Asset.t * nat) :=
  if negb (truthy (Asset.group_name asset)) then
    match _evaluate_rules rs asset with
    | Ok group_name =>
        if truthy group_name then
          Ok (Asset.set_updated_at (Some (now_at n))
                (Asset.set_group_name group_name asset), S n)
        else Ok (asset, n)
    | Raise e => Raise e
    end
  else Ok (asset, n).

(** The loop of [_process_existing_assets] over [self.assets.values()].
    The assets are changed in place, so the mapping keeps its keys and
    their order; an exception stops the loop where it is. *)
Fixpoint process_assets_loop (rs : dict GroupingRule.t) (n : nat) (todo : dict Asset.t)
  : dict Asset.t * nat * result unit :=
  match todo with
  | [] => ([], n, Ok tt)
  | (k, asset) :: rest =>
      match process_asset rs n asset with
      | Ok (asset', n') =>
          let p := process_assets_loop rs n' rest in
          ((k, asset') :: fst (fst p), snd (fst p), snd p)
      | Raise e => (todo, n, Raise e)
      end
  end.

(** [GroupingService._process_existing_assets] *)
Definition _process_existing_assets : M unit :=
  fun w =>
    let p := process_assets_loop (rules (service w)) (clock_reads w)
                                 (assets (service w)) in
    (Build_World (Build_GroupingService (fst (fst p)) (rules (service w)))
                 (snd (fst p)) (uuid_reads w),
     snd p).

(** [GroupingService.create_asset] *)
Definition create_asset (asset : Asset.t) : M Asset.t :=
  asset_id <- uuid4 ;;
  now <- datetime_now ;;
  let asset_data :=
    Asset_model_dump ["id"; "group_name"; "created_at"; "updated_at"] asset in
  kw <- lift (kwargs_merge [("id", PyStr asset_id); ("created_at", PyDatetime now);
                            ("updated_at", PyDatetime now)] asset_data) ;;
  new_asset <- lift (Asset_init kw) ;;
  self <- get_self ;;
  group_name <- lift (_evaluate_rules (rules self) new_asset) ;;
  let new_asset :=
    if truthy group_name then Asset.set_group_name group_name new_asset
    else new_asset in
  set_asset asset_id new_asset ;;
  ret new_asset.

(** [GroupingService.get_asset] *)
Definition get_asset (asset_id : string) : M (option Asset.t) :=
  self <- get_self ;;
  ret (dict_get asset_id (assets self)).

(** [GroupingService.update_asset] *)
Definition update_asset (asset_id : string) (asset : Asset.t) : M (option Asset.t) :=
  self <- get_self ;;
  match dict_get asset_id (assets self) with
  | None => ret None
  | Some current_asset =>
      let current_data := Asset_model_dump [] current_asset in
      let update_data :=
        Asset_model_dump ["id"; "created_at"; "updated_at"; "group_name"] asset in
      let current_data := dict_update current_data update_data in
      let current_data := dict_set "id" (PyStr asset_id) current_data in
      let current_data :=
        dict_set "created_at" (py_opt_datetime (Asset.created_at current_asset))
                 current_data in
      now <- datetime_now ;;
      let current_data := dict_set "updated_at" (PyDatetime now) current_data in
      updated_asset <- lift (Asset_init current_data) ;;
      group_name <- lift (_evaluate_rules (rules self) updated_asset) ;;
      let updated_asset := Asset.set_group_name group_name updated_asset in
      set_asset asset_id updated_asset ;;
      ret (Some updated_asset)
  end.

(** [GroupingService.create_rule] *)
Definition create_rule (rule : GroupingRule.t) : M GroupingRule.t :=
  rule_id <- uuid4 ;;
  now <- datetime_now ;;
  let rule_data :=
    GroupingRule_model_dump ["id"; "created_at"; "updated_at"] false rule in
  kw <- lift (kwargs_merge [("id", PyStr rule_id); ("created_at", PyDatetime now);
                            ("updated_at", PyDatetime now)] rule_data) ;;
  new_rule <- lift (GroupingRule_init kw) ;;
  set_rule rule_id new_rule ;;
  _process_existing_assets ;;
  ret new_rule.

(** [GroupingService.update_rule]. The keyword arguments of the call of
    [GroupingRule] are collected from left to right: the dump of the
    current rule, then [update_data], then [updated_at], whose value is
    computed only when the first two have been merged. *)
Definition update_rule (rule_id : string) (rule : GroupingRule.t)
  : M (option GroupingRule.t) :=
  self <- get_self ;;
  match dict_get rule_id (rules self) with
  | None => ret None
  | Some current_rule =>
      let update_data :=
        GroupingRule_model_dump ["id"; "created_at"; "updated_at"] true rule in
      kw <- lift (kwargs_merge [] (GroupingRule_model_dump [] false current_rule)) ;;
      kw <- lift (kwargs_merge kw update_data) ;;
      now <- datetime_now ;;
      kw <- lift (kwargs_merge kw [("updated_at", PyDatetime now)]) ;;
      updated_rule <- lift (GroupingRule_init kw) ;;
      set_rule rule_id updated_rule ;;
      _process_existing_assets ;;
      ret (Some updated_rule)
  end.

(** The mutating operations of the store, and a run of a sequence of them
    on one service; an operation that raises leaves the world as it was
    when the exception was raised and the run goes on. *)
Inductive Op : Type :=
| OpCreateAsset (asset : Asset.t)
| OpUpdateAsset (asset_id : string) (asset : Asset.t)
| OpCreateRule (rule : GroupingRule.t)
| OpUpdateRule (rule_id : string) (rule : GroupingRule.t)
| OpReprocess.

Definition run_op (op : Op) (w : World) : World :=
  match op with
  | OpCreateAsset asset => fst (create_asset asset w)
  | OpUpdateAsset asset_id asset => fst (update_asset asset_id asset w)
  | OpCreateRule rule => fst (create_rule rule w)
  | OpUpdateRule rule_id rule => fst (update_rule rule_id rule w)
  | OpReprocess => fst (_process_existing_assets w)
  end.

Definition run_ops (ops : list Op) (w : World) : World :=
  fold_left (fun w op => run_op op w) ops w.

End Service.

(** ** The request handlers ([src/api/routes.py]) *)

(** The [detail] of an [HTTPException]: a text, or [str(e)] for a caught
    exception [e], which is kept as [e]. *)
Inductive Detail : Type :=
| DetailText (s : string)
| DetailOfException (e : PyExc).

(** What a call of a handler ends with: a returned value, an
    [HTTPException], an exception of the service that the handler lets
    through, or a [NotImplementedError]. *)
Inductive response (A : Type) : Type :=
| Returned (a : A)
| HTTPException (status_code : nat) (detail : Detail)
| Propagated (e : PyExc)
| NotImplementedError (message : string).

Arguments Returned {A} a.
Arguments HTTPException {A} status_code detail.
Arguments Propagated {A} e.
Arguments NotImplementedError {A} message.

(** A handler works on the module-wide [grouping_service]. *)
Definition Handler (A : Type) : Type := World -> World * response A.

Definition HTTP_404_NOT_FOUND : nat := 404.

Module routes.

(** [POST /assets] *)
Definition create_asset (now_at : nat -> Z) (uuid4_at : nat -> string)
  (asset : Asset.t) : Handler Asset.t :=
  fun w =>
    match create_asset now_at uuid4_at asset w with
    | (w', Ok created) => (w', Returned created)
    | (w', Raise e) => (w', HTTPException 400 (DetailOfException e))
    end.

(** [GET /assets] *)
Definition list_assets : Handler (list Asset.t) :=
  fun w => (w, NotImplementedError "List assets endpoint to be implemented").

(** [GET /assets/{asset_id}] *)
Definition get_asset (asset_id : string) : Handler Asset.t :=
  fun w =>
    match get_asset asset_id w with
    | (w', Ok (Some asset)) => (w', Returned asset)
    | (w', Ok None) =>
        (w', HTTPException HTTP_404_NOT_FOUND
               (DetailText ("Asset with ID " ++ asset_id ++ " not found")%string))
    | (w', Raise e) => (w', Propagated e)
    end.

(** [PATCH /assets/{asset_id}] *)
Definition update_asset (now_at : nat -> Z) (asset_id : string) (asset : Asset.t)
  : Handler Asset.t :=
  fun w =>
    match update_asset now_at asset_id asset w with
    | (w', Ok (Some updated_asset)) => (w', Returned updated_asset)
    | (w', Ok None) =>
        (w', HTTPException HTTP_404_NOT_FOUND
               (DetailText ("Asset with ID " ++ asset_id ++ " not found")%string))
    | (w', Raise e) => (w', Propagated e)
    end.

(** [DELETE /assets/{asset_id}] *)
Definition delete_asset (asset_id : string) : Handler unit :=
  fun w => (w, NotImplementedError "Delete asset endpoint to be implemented").

(** [POST /rules] *)
Definition create_rule (now_at : nat -> Z) (uuid4_at : nat -> string)
  (rule : GroupingRule.t) : Handler GroupingRule.t :=
  fun w =>
    match create_rule now_at uuid4_at rule w with
    | (w', Ok created) => (w', Returned created)
    | (w', Raise e) => (w', HTTPException 400 (DetailOfException e))
    end.

(** [GET /rules] *)
Definition list_rules : Handler (list GroupingRule.t) :=
  fun w => (w, NotImplementedError "List rules endpoint to be implemented").

(** [GET /rules/{rule_id}] *)
Definition get_rule (rule_id : string) : Handler GroupingRule.t :=
  fun w => (w, NotImplementedError "Get rule endpoint to be implemented").

(** [PATCH /rules/{rule_id}] *)
Definition update_rule (now_at : nat -> Z) (rule_id : string) (rule : GroupingRule.t)
  : Handler GroupingRule.t :=
  fun w =>
    match update_rule now_at rule_id rule w with
    | (w', Ok (Some updated_rule)) => (w', Returned updated_rule)
    | (w', Ok None) =>
        (w', HTTPException HTTP_404_NOT_FOUND
               (DetailText ("Rule with ID " ++ rule_id ++ " not found")%string))
    | (w', Raise e) => (w', Propagated e)
    end.

(** [DELETE /rules/{rule_id}] *)
Definition delete_rule (rule_id : string) : Handler unit :=
  fun w => (w, NotImplementedError "Delete rule endpoint to be implemented").

End routes.

(** ** Notions used to state the properties *)

(** [needle] occurs in [hay] as a contiguous run of characters. *)
Definition is_substring (needle hay : string) : Prop :=
  exists pre post, hay = (pre ++ needle ++ post)%string.

(** The asset that [create_asset] builds from the payload [asset] before
    it resolves its group. *)
Definition new_asset_of (asset : Asset.t) (asset_id : string) (now : Z) : Asset.t :=
  Asset.Build (Asset.name asset) (Asset.type asset) (Asset.tags asset)
    (Asset.cloud_account asset) (Asset.owner_id asset) (Asset.region asset)
    (Some asset_id) None (Some now) (Some now).

(** The asset that [update_asset] builds from the stored asset [current]
    and the payload [asset] before it resolves its group: the payload's
    descriptive fields over the stored identity and creation time. *)
Definition merged_asset_of (current asset : Asset.t) (asset_id : string) (now : Z)
  : Asset.t :=
  Asset.Build (Asset.name asset) (Asset.type asset) (Asset.tags asset)
    (Asset.cloud_account asset) (Asset.owner_id asset) (Asset.region asset)
    (Some asset_id) (Asset.group_name current) (Asset.created_at current) (Some now).

(** The rule that [create_rule] builds from the payload [rule]. *)
Definition new_rule_of (rule : GroupingRule.t) (rule_id : string) (now : Z)
  : GroupingRule.t :=
  GroupingRule.Build (GroupingRule.group_name rule) (GroupingRule.conditions rule)
    (GroupingRule.description rule) (Some rule_id) (Some now) (Some now)
    GroupingRule_field_names.

Definition with_assets (d : dict Asset.t) (w : World) : World :=
  Build_World (Build_GroupingService d (rules (service w)))
              (clock_reads w) (uuid_reads w).

Definition with_rules (d : dict GroupingRule.t) (w : World) : World :=
  Build_World (Build_GroupingService (assets (service w)) d)
              (clock_reads w) (uuid_reads w).

Definition tick_clock (w : World) : World :=
  Build_World (service w) (S (clock_reads w)) (uuid_reads w).

Definition tick_uuid (w : World) : World :=
  Build_World (service w) (clock_reads w) (S (uuid_reads w)).

(** [visited now_at rs n nf a a']: the loop of the reprocessing pass,
    entered at clock reading [n] and left at [nf], has run its body on [a]
    and left [a']. *)
Definition visited (now_at : nat -> Z) (rs : dict GroupingRule.t) (n nf : nat)
  (a a' : Asset.t) : Prop :=
  exists m m', n <= m /\ m' <= nf /\ process_asset now_at rs m a = Ok (a', m').

(** A [contains] condition on [type] or [name] gives the value to look
    for. *)
Definition has_value (c : GroupingCondition.t) : Prop :=
  GroupingCondition.operator c = CONTAINS ->
  GroupingCondition.field c = "type" \/ GroupingCondition.field c = "name" ->
  GroupingCondition.value c <> None.

Definition rules_have_values (rs : dict GroupingRule.t) : Prop :=
  Forall (fun r => Forall has_value (GroupingRule.conditions r)) (dict_values rs).

(** The call returns a boolean, which is true exactly when [P] holds. *)
Definition returns_iff (r : result bool) (P : Prop) : Prop :=
  exists b, r = Ok b /\ (b = true <-> P).

(** [stamped now_at n a]: the two timestamps of [a] are clock readings
    taken among the first [n], [created_at] no later than [updated_at]. *)
Definition stamped (now_at : nat -> Z) (n : nat) (a : Asset.t) : Prop :=
  exists i j,
    i <= j /\ j < n
    /\ Asset.created_at a = Some (now_at i)
    /\ Asset.updated_at a = Some (now_at j).

(** Every stored asset is stamped and is stored under an identifier that
    has been drawn. *)
Definition world_ok (now_at : nat -> Z) (uuid4_at : nat -> string) (w : World) : Prop :=
  forall k a,
    In (k, a) (assets (service w)) ->
    stamped now_at (clock_reads w) a
    /\ exists i, i < uuid_reads w /\ k = uuid4_at i.

(** The six fields of an asset that its owner chooses; the other four are
    kept by the service. *)
Definition same_descriptive_fields (a b : Asset.t) : Prop :=
  Asset.name a = Asset.name b
  /\ Asset.type a = Asset.type b
  /\ Asset.tags a = Asset.tags b
  /\ Asset.cloud_account a = Asset.cloud_account b
  /\ Asset.owner_id a = Asset.owner_id b
  /\ Asset.region a = Asset.region b.

(** [op] is not an update of the asset stored under [k]. *)
Definition no_update_of (k : string) (op : Op) : Prop :=
  match op with
  | OpUpdateAsset asset_id _ => asset_id <> k
  | _ => True
  end.

(** The number of rule creations in a sequence of operations. *)
Definition rule_creations (ops : list Op) : nat :=
  List.length (filter (fun op => match op with OpCreateRule _ => true | _ => false end)
                      ops).

(** Every rule is stored under an identifier that has been drawn, carries
    it, and has never been updated. *)
Definition rules_ok (uuid4_at : nat -> string) (w : World) : Prop :=
  forall k r,
    In (k, r) (rules (service w)) ->
    (exists i, i < uuid_reads w /\ k = uuid4_at i)
    /\ GroupingRule.id r = Some k
    /\ GroupingRule.updated_at r = GroupingRule.created_at r.

(** Every asset carries the identifier it is stored under, and its group
    name, when it has one, is the group name of a stored rule. *)
Definition assets_ok (w : World) : Prop :=
  forall k a,
    In (k, a) (assets (service w)) ->
    Asset.id a = Some k
    /\ forall g, Asset.group_name a = Some g ->
                 exists k' r, In (k', r) (rules (service w))
                              /\ GroupingRule.group_name r = g.

(** What holds of every world of a run. *)
Definition run_ok (now_at : nat -> Z) (uuid4_at : nat -> string) (w : World) : Prop :=
  world_ok now_at uuid4_at w /\ rules_ok uuid4_at w /\ assets_ok w.

(** ** Sample data ([tests/conftest.py]) *)

Definition sample_now (n : nat) : Z := 1700000000 + Z.of_nat n.

Fixpoint sample_uuid (n : nat) : string :=
  match n with
  | O => "a"
  | S m => String "b" (sample_uuid m)
  end.

(** A rule payload as the request layer builds it from a body that gives
    the two required fields and, when [description] is not [None], the
    description. *)
Definition rule_payload (group_name : string) (conditions : list GroupingCondition.t)
  (description : option string) : GroupingRule.t :=
  GroupingRule.Build group_name conditions description None None None
    (match description with
     | Some _ => ["group_name"; "conditions"; "description"]
     | None => ["group_name"; "conditions"]
     end).

Definition asset_payload (name type : string) (tags : list Tag.t) : Asset.t :=
  Asset.Build name type tags (CloudAccount.Build "123" "main") "user1" "us-east-1"
    None None None None.

Definition sample_asset : Asset.t :=
  asset_payload "test-instance-prod" "ec2-instance"
    [Tag.Build "env" "prod"; Tag.Build "team" "platform"].

Definition sample_rule : GroupingRule.t :=
  rule_payload "production-instances"
    [GroupingCondition.Build "type" EQUALS (Some "ec2-instance") None None;
     GroupingCondition.Build "tag" EQUALS None (Some "env") (Some "prod")]
    (Some "Production EC2 instances").

(** The sample rule created, then the sample asset: the rule is stored
    under ["a"] and the asset, grouped, under ["ba"]. *)
Definition world_rule_then_asset : World :=
  run_ops sample_now sample_uuid
    [OpCreateRule sample_rule; OpCreateAsset sample_asset] init_world.

(** The sample asset alone, ungrouped, under ["a"]. *)
Definition world_asset_only : World :=
  run_ops sample_now sample_uuid [OpCreateAsset sample_asset] init_world.

(** A rule without conditions and with an empty group name under ["a"],
    then the sample asset, left ungrouped, under ["ba"]. *)
Definition world_empty_rule : World :=
  run_ops sample_now sample_uuid
    [OpCreateRule (rule_payload "" [] None); OpCreateAsset sample_asset] init_world.

Definition catch_all_rule : GroupingRule.t := rule_payload "everything" [] None.

Definition bucket_rule : GroupingRule.t :=
  rule_payload "buckets"
    [GroupingCondition.Build "type" EQUALS (Some "s3-bucket") None None] None.

Definition database_payload : Asset.t := asset_payload "orders-db" "rds-instance" [].

(** A store written by hand: an asset whose group name is the empty
    string, and a rule without conditions. *)
Definition blank_group_asset : Asset.t :=
  Asset.Build "cache" "redis" [] (CloudAccount.Build "123" "main") "user1" "us-east-1"
    (Some "k") (Some "") (Some 10%Z) (Some 20%Z).

Definition world_blank_group : World :=
  Build_World
    (Build_GroupingService [("k", blank_group_asset)]
       [("r", new_rule_of catch_all_rule "r" 30%Z)])
    4 2.

(** A rule whose only condition is a [contains] without a value. *)
Definition valueless_rule : GroupingRule.t :=
  rule_payload "broken" [GroupingCondition.Build "type" CONTAINS None None None] None.

(** The sample asset, ungrouped, under ["a"], then the rule without a
    value, whose creation raises. *)
Definition world_valueless_rule : World :=
  run_ops sample_now sample_uuid
    [OpCreateAsset sample_asset; OpCreateRule valueless_rule] init_world.

(** The sample asset with its tags in the other order and other values in
    the fields that the evaluator does not read. *)
Definition shuffled_asset : Asset.t :=
  Asset.Build "test-instance-prod" "ec2-instance"
    [Tag.Build "team" "platform"; Tag.Build "env" "prod"]
    (CloudAccount.Build "999" "backup") "user2" "eu-west-1"
    (Some "other") (Some "manual") (Some 5%Z) (Some 6%Z).

(** The sample payloads with values in the fields that the service keeps. *)
Definition stamped_asset_payload : Asset.t :=
  Asset.Build "test-instance-prod" "ec2-instance"
    [Tag.Build "env" "prod"; Tag.Build "team" "platform"]
    (CloudAccount.Build "123" "main") "user1" "us-east-1"
    (Some "mine") (Some "manual") (Some 5%Z) (Some 6%Z).

Definition stamped_rule_payload : GroupingRule.t :=
  GroupingRule.Build "production-instances"
    [GroupingCondition.Build "type" EQUALS (Some "ec2-instance") None None;
     GroupingCondition.Build "tag" EQUALS None (Some "env") (Some "prod")]
    (Some "Production EC2 instances") (Some "mine") (Some 5%Z) (Some 6%Z)
    GroupingRule_field_names.

(** Two rule creations on a new service, both of which return: the rule
    without a value under ["a"], then a rule without conditions under
    ["ba"]. *)
Definition world_valueless_then_catch_all : World :=
  run_ops sample_now sample_uuid
    [OpCreateRule valueless_rule; OpCreateRule catch_all_rule] init_world.

(** A clock that is set back after its first reading. *)
Definition clock_set_back (n : nat) : Z :=
  match n with
  | O => 100
  | S _ => 50
  end.

(** * Properties *)

(** ** Strings *)

Lemma starts_with_app (p s : string) :
  starts_with p s = true <-> exists post, s = (p ++ post)%string.
Proof.
  revert s. induction p as [|a p IH]; intros s; simpl.
  - split; [intros _; exists s; reflexivity | reflexivity].
  - destruct s as [|b s].
    + split; [discriminate | intros [post H]; discriminate].
    + destruct (Ascii.eqb_spec a b) as [->|Hab].
      * rewrite IH. split; intros [post H]; exists post; congruence.
      * split; [discriminate | intros [post H]; congruence].
Qed.

Lemma str_contains_substring (needle hay : string) :
  str_contains needle hay = true <-> is_substring needle hay.
Proof.
  unfold is_substring. induction hay as [|c hay IH].
  - simpl. rewrite orb_false_r, starts_with_app. split.
    + intros [post H]. exists EmptyString, post. exact H.
    + intros [pre [post H]]. destruct pre; [exists post; exact H | discriminate].
  - change (str_contains needle (String c hay))
      with (starts_with needle (String c hay) || str_contains needle hay).
    rewrite orb_true_iff, starts_with_app, IH. split.
    + intros [[post H] | [pre [post H]]].
      * exists EmptyString, post. exact H.
      * exists (String c pre), post. simpl. congruence.
    + intros [pre [post H]]. destruct pre as [|c' pre].
      * left. exists post. exact H.
      * right. exists pre, post. simpl in H. congruence.
Qed.

Lemma py_eq_true (s : string) (o : option string) :
  py_eq s o = true <-> o = Some s.
Proof.
  destruct o as [v|]; simpl.
  - rewrite String.eqb_eq. split; congruence.
  - split; discriminate.
Qed.

Lemma truthy_true (o : option string) :
  truthy o = true <-> exists s, o = Some s /\ s <> "".
Proof.
  destruct o as [s|]; simpl.
  - rewrite negb_true_iff, String.eqb_neq. split.
    + intros H. exists s. split; [reflexivity | exact H].
    + intros [s' [E H]]. congruence.
  - split; [discriminate | intros [s [E _]]; discriminate].
Qed.

(** ** The builtin [all] and the loop over the rules *)

Lemma py_all_true {A : Type} (f : A -> result bool) (l : list A) :
  py_all f l = Ok true <-> Forall (fun x => f x = Ok true) l.
Proof.
  induction l as [|x l IH]; simpl.
  - split; [intros _; constructor | reflexivity].
  - destruct (f x) as [[|]|e] eqn:E.
    + rewrite IH. split.
      * intros H. constructor; assumption.
      * intros H. inversion H; assumption.
    + split; [discriminate | intros H; inversion H; congruence].
    + split; [discriminate | intros H; inversion H; congruence].
Qed.

Lemma evaluate_rules_loop_first (asset : Asset.t) (pre post : list GroupingRule.t)
  (rule : GroupingRule.t) :
  Forall (fun r => rule_matches asset r = Ok false) pre ->
  rule_matches asset rule = Ok true ->
  evaluate_rules_loop (pre ++ rule :: post) asset
  = Ok (Some (GroupingRule.group_name rule)).
Proof.
  intros Hpre Hrule. induction Hpre as [|r pre Hr Hpre IH]; simpl.
  - rewrite Hrule. reflexivity.
  - rewrite Hr. exact IH.
Qed.

Lemma evaluate_rules_loop_none (asset : Asset.t) (rs : list GroupingRule.t) :
  evaluate_rules_loop rs asset = Ok None
  <-> Forall (fun r => rule_matches asset r = Ok false) rs.
Proof.
  induction rs as [|r rs IH]; simpl.
  - split; [intros _; constructor | reflexivity].
  - destruct (rule_matches asset r) as [[|]|e] eqn:E.
    + split; [discriminate | intros H; inversion H; congruence].
    + rewrite IH. split.
      * intros H. constructor; assumption.
      * intros H. inversion H; assumption.
    + split; [discriminate | intros H; inversion H; congruence].
Qed.

Lemma evaluate_rules_loop_some (asset : Asset.t) (rs : list GroupingRule.t) (g : string) :
  evaluate_rules_loop rs asset = Ok (Some g) ->
  exists pre rule post,
    rs = pre ++ rule :: post
    /\ Forall (fun r => rule_matches asset r = Ok false) pre
    /\ rule_matches asset rule = Ok true
    /\ GroupingRule.group_name rule = g.
Proof.
  induction rs as [|r rs IH]; simpl.
  - discriminate.
  - destruct (rule_matches asset r) as [[|]|e] eqn:E.
    + intros H. exists [], r, rs.
      split; [reflexivity|]. split; [constructor|]. split; [exact E | congruence].
    + intros H. destruct (IH H) as (pre & rule & post & -> & Hpre & Hrule & Hg).
      exists (r :: pre), rule, post.
      split; [reflexivity|]. split; [constructor; assumption|].
      split; assumption.
    + discriminate.
Qed.

Lemma evaluate_rules_loop_app (asset : Asset.t) (rs1 rs2 : list GroupingRule.t) :
  evaluate_rules_loop (rs1 ++ rs2) asset
  = match evaluate_rules_loop rs1 asset with
    | Ok None => evaluate_rules_loop rs2 asset
    | other => other
    end.
Proof.
  induction rs1 as [|r rs1 IH]; simpl.
  - reflexivity.
  - destruct (rule_matches asset r) as [[|]|e]; [reflexivity | exact IH | reflexivity].
Qed.

(** ** Dictionaries *)

Lemma dict_get_set_same {V : Type} (k : string) (v : V) (d : dict V) :
  dict_get k (dict_set k v d) = Some v.
Proof.
  induction d as [|[k' v'] d IH]; simpl.
  - rewrite String.eqb_refl. reflexivity.
  - destruct (k' =? k) eqn:E; simpl.
    + rewrite String.eqb_refl. reflexivity.
    + rewrite E. exact IH.
Qed.

Lemma dict_get_set_other {V : Type} (k k0 : string) (v : V) (d : dict V) :
  k0 <> k -> dict_get k (dict_set k0 v d) = dict_get k d.
Proof.
  intros Hne. induction d as [|[k' v'] d IH]; simpl.
  - apply String.eqb_neq in Hne. rewrite Hne. reflexivity.
  - destruct (k' =? k0) eqn:E; simpl.
    + apply String.eqb_eq in E. subst k'.
      apply String.eqb_neq in Hne. rewrite Hne. reflexivity.
    + destruct (k' =? k); [reflexivity | exact IH].
Qed.

Lemma dict_values_set_fresh {V : Type} (k : string) (v : V) (d : dict V) :
  dict_get k d = None -> dict_values (dict_set k v d) = dict_values d ++ [v].
Proof.
  unfold dict_values. induction d as [|[k' v'] d IH]; simpl.
  - reflexivity.
  - destruct (k' =? k); [discriminate|]. intros H. simpl. rewrite (IH H). reflexivity.
Qed.

Lemma dict_get_In {V : Type} (k : string) (v : V) (d : dict V) :
  dict_get k d = Some v -> In (k, v) d.
Proof.
  induction d as [|[k' v'] d IH]; simpl.
  - discriminate.
  - destruct (k' =? k) eqn:E.
    + apply String.eqb_eq in E. intros H. left. congruence.
    + intros H. right. exact (IH H).
Qed.

Lemma dict_set_In {V : Type} (k k0 : string) (v v0 : V) (d : dict V) :
  In (k, v) (dict_set k0 v0 d) -> (k = k0 /\ v = v0) \/ In (k, v) d.
Proof.
  induction d as [|[k' v'] d IH]; simpl.
  - intros [H|[]]. left. split; congruence.
  - destruct (k' =? k0); simpl.
    + intros [H|H]; [left; split; congruence | right; right; exact H].
    + intros [H|H]; [right; left; exact H|].
      destruct (IH H) as [H'|H']; [left; exact H' | right; right; exact H'].
Qed.

(** ** Closed forms of the operations *)

Section Closed_forms.

Variable now_at : nat -> Z.
Variable uuid4_at : nat -> string.

Lemma create_asset_eq (asset : Asset.t) (w : World) :
  create_asset now_at uuid4_at asset w
  = let asset_id := uuid4_at (uuid_reads w) in
    let new_asset := new_asset_of asset asset_id (now_at (clock_reads w)) in
    let w1 := tick_clock (tick_uuid w) in
    match _evaluate_rules (rules (service w)) new_asset with
    | Ok group_name =>
        let stored :=
          if truthy group_name then Asset.set_group_name group_name new_asset
          else new_asset in
        (with_assets (dict_set asset_id stored (assets (service w))) w1, Ok stored)
    | Raise e => (w1, Raise e)
    end.
Proof.
  unfold create_asset, bind, uuid4, datetime_now, lift, get_self, set_asset, ret.
  cbn. unfold new_asset_of, tick_clock, tick_uuid, with_assets. cbn.
  destruct (_evaluate_rules _ _); reflexivity.
Qed.

Lemma update_asset_eq (asset_id : string) (asset : Asset.t) (w : World) :
  update_asset now_at asset_id asset w
  = match dict_get asset_id (assets (service w)) with
    | None => (w, Ok None)
    | Some current =>
        let merged := merged_asset_of current asset asset_id (now_at (clock_reads w)) in
        match _evaluate_rules (rules (service w)) merged with
        | Ok group_name =>
            let stored := Asset.set_group_name group_name merged in
            (with_assets (dict_set asset_id stored (assets (service w))) (tick_clock w),
             Ok (Some stored))
        | Raise e => (tick_clock w, Raise e)
        end
    end.
Proof.
  unfold update_asset, bind, get_self. cbn.
  destruct (dict_get asset_id (assets (service w))) as [current|]; [|reflexivity].
  unfold datetime_now, lift, set_asset, ret, bind. cbn.
  destruct current as [n t tg ca o r i [g|] [c|] u]; cbn;
    unfold merged_asset_of, tick_clock, with_assets; cbn;
    destruct (_evaluate_rules _ _); reflexivity.
Qed.

Lemma create_rule_eq (rule : GroupingRule.t) (w : World) :
  create_rule now_at uuid4_at rule w
  = let rule_id := uuid4_at (uuid_reads w) in
    let new_rule := new_rule_of rule rule_id (now_at (clock_reads w)) in
    let w1 := with_rules (dict_set rule_id new_rule (rules (service w)))
                         (tick_clock (tick_uuid w)) in
    match _process_existing_assets now_at w1 with
    | (w2, Ok _) => (w2, Ok new_rule)
    | (w2, Raise e) => (w2, Raise e)
    end.
Proof.
  unfold create_rule, bind, uuid4, datetime_now, lift, set_rule, ret.
  cbn. unfold new_rule_of, tick_clock, tick_uuid, with_rules. cbn.
  unfold _process_existing_assets, GroupingRule_field_names.
  destruct (GroupingRule.description rule); cbn;
    destruct (process_assets_loop _ _ _ _) as [[l n] [u|e]]; reflexivity.
Qed.

(** A present rule id: collecting the keyword arguments of [GroupingRule]
    raises, either on a field of [update_data] or on [updated_at], both of
    which the dump of the current rule already holds. The clock is read
    only in the second case. *)
Lemma update_rule_eq (rule_id : string) (rule : GroupingRule.t) (w : World) :
  update_rule now_at rule_id rule w
  = match dict_get rule_id (rules (service w)) with
    | None => (w, Ok None)
    | Some current =>
        match GroupingRule_model_dump ["id"; "created_at"; "updated_at"] true rule with
        | [] => (tick_clock w, Raise TypeError)
        | _ :: _ => (w, Raise TypeError)
        end
    end.
Proof.
  unfold update_rule, bind, get_self. cbn.
  destruct (dict_get rule_id (rules (service w))) as [current|]; [|reflexivity].
  unfold GroupingRule_model_dump, lift, datetime_now, bind. cbn.
  destruct (str_mem "group_name" _), (str_mem "conditions" _),
    (str_mem "description" _); reflexivity.
Qed.

(** *** The reprocessing pass *)

Lemma process_asset_inv (rs : dict GroupingRule.t) (n n' : nat) (a a' : Asset.t) :
  process_asset now_at rs n a = Ok (a', n') ->
  (a' = a /\ n' = n
   /\ (truthy (Asset.group_name a) = true
       \/ exists g, _evaluate_rules rs a = Ok g /\ truthy g = false))
  \/ (exists g,
        truthy (Asset.group_name a) = false
        /\ _evaluate_rules rs a = Ok g /\ truthy g = true
        /\ a' = Asset.set_updated_at (Some (now_at n)) (Asset.set_group_name g a)
        /\ n' = S n).
Proof.
  unfold process_asset.
  destruct (truthy (Asset.group_name a)) eqn:Ht; simpl.
  - intros H. injection H as <- <-. left. auto.
  - destruct (_evaluate_rules rs a) as [g|e] eqn:Ev; [|discriminate].
    destruct (truthy g) eqn:Hg; intros H; injection H as <- <-.
    + right. exists g. auto.
    + left. split; [reflexivity|]. split; [reflexivity|]. right. exists g. auto.
Qed.

Lemma process_asset_clock (rs : dict GroupingRule.t) (n n' : nat) (a a' : Asset.t) :
  process_asset now_at rs n a = Ok (a', n') -> n <= n' <= S n.
Proof.
  intros H. apply process_asset_inv in H.
  destruct H as [(_ & -> & _) | (g & _ & _ & _ & _ & ->)]; lia.
Qed.

(** An asset that the loop has gone over is left alone by a second visit,
    whatever the clock. *)
Lemma process_asset_again (rs : dict GroupingRule.t) (n n' m : nat) (a a' : Asset.t) :
  process_asset now_at rs n a = Ok (a', n') ->
  process_asset now_at rs m a' = Ok (a', m).
Proof.
  intros H. apply process_asset_inv in H.
  destruct H as [(-> & _ & [Ht | (g & Ev & Hg)]) | (g & Ht & Ev & Hg & -> & _)];
    unfold process_asset.
  - rewrite Ht. reflexivity.
  - destruct (truthy (Asset.group_name a)); simpl; [reflexivity|].
    rewrite Ev, Hg. reflexivity.
  - simpl. rewrite Hg. reflexivity.
Qed.

Lemma process_asset_raise (rs : dict GroupingRule.t) (n m : nat) (a : Asset.t) (e : PyExc) :
  process_asset now_at rs n a = Raise e -> process_asset now_at rs m a = Raise e.
Proof.
  unfold process_asset.
  destruct (truthy (Asset.group_name a)); simpl; [discriminate|].
  destruct (_evaluate_rules rs a) as [g|e']; [|exact (fun H => H)].
  destruct (truthy g); discriminate.
Qed.

Lemma process_assets_loop_clock (rs : dict GroupingRule.t) (todo : dict Asset.t) (n : nat) :
  n <= snd (fst (process_assets_loop now_at rs n todo)).
Proof.
  revert n. induction todo as [|[k a] rest IH]; intros n; simpl.
  - lia.
  - destruct (process_asset now_at rs n a) as [[a' n']|e] eqn:E; simpl; [|lia].
    apply process_asset_clock in E. specialize (IH n'). lia.
Qed.

Lemma process_assets_loop_keys (rs : dict GroupingRule.t) (todo : dict Asset.t) (n : nat) :
  dict_keys (fst (fst (process_assets_loop now_at rs n todo))) = dict_keys todo.
Proof.
  revert n. induction todo as [|[k a] rest IH]; intros n; simpl.
  - reflexivity.
  - destruct (process_asset now_at rs n a) as [[a' n']|e]; simpl; [|reflexivity].
    f_equal. apply IH.
Qed.

Lemma process_assets_loop_get (rs : dict GroupingRule.t) (todo : dict Asset.t)
  (n : nat) (k : string) (a : Asset.t) :
  dict_get k todo = Some a ->
  let p := process_assets_loop now_at rs n todo in
  exists a',
    dict_get k (fst (fst p)) = Some a'
    /\ (a' = a \/ visited now_at rs n (snd (fst p)) a a')
    /\ (snd p = Ok tt -> visited now_at rs n (snd (fst p)) a a').
Proof.
  revert n. induction todo as [|[k0 a0] rest IH]; intros n; simpl.
  - discriminate.
  - destruct (process_asset now_at rs n a0) as [[a0' n']|e] eqn:E; simpl.
    + pose proof (process_asset_clock _ _ _ _ _ E) as Hc.
      pose proof (process_assets_loop_clock rs rest n') as Hc'.
      destruct (k0 =? k) eqn:Ek.
      * intros H. injection H as ->. exists a0'.
        assert (Hv : visited now_at rs n (snd (fst (process_assets_loop now_at rs n' rest))) a a0').
        { exists n, n'. split; [lia|]. split; [lia | exact E]. }
        split; [reflexivity|]. split; [right; exact Hv | intros _; exact Hv].
      * intros H. destruct (IH n' H) as (a' & Hg & Hor & Hok).
        exists a'. split; [exact Hg|]. split.
        -- destruct Hor as [->|(m & m' & H1 & H2 & H3)]; [left; reflexivity|].
           right. exists m, m'. split; [lia|]. split; assumption.
        -- intros Hr. destruct (Hok Hr) as (m & m' & H1 & H2 & H3).
           exists m, m'. split; [lia|]. split; assumption.
    + intros H. exists a. split.
      * simpl. exact H.
      * split; [left; reflexivity | discriminate].
Qed.

Lemma process_assets_loop_In (rs : dict GroupingRule.t) (todo : dict Asset.t)
  (n : nat) (k : string) (a' : Asset.t) :
  let p := process_assets_loop now_at rs n todo in
  In (k, a') (fst (fst p)) ->
  exists a, In (k, a) todo /\ (a' = a \/ visited now_at rs n (snd (fst p)) a a').
Proof.
  revert n. induction todo as [|[k0 a0] rest IH]; intros n; simpl.
  - intros [].
  - destruct (process_asset now_at rs n a0) as [[a0' n']|e] eqn:E; simpl.
    + pose proof (process_asset_clock _ _ _ _ _ E) as Hc.
      pose proof (process_assets_loop_clock rs rest n') as Hc'.
      intros [H|H].
      * injection H as -> ->. exists a0. split; [left; reflexivity|].
        right. exists n, n'. split; [lia|]. split; [lia | exact E].
      * destruct (IH n' H) as (a & Hin & Hor). exists a. split; [right; exact Hin|].
        destruct Hor as [->|(m & m' & H1 & H2 & H3)]; [left; reflexivity|].
        right. exists m, m'. split; [lia|]. split; assumption.
    + intros H. exists a'. split; [exact H | left; reflexivity].
Qed.

(** A second run of the loop, from whatever clock reading, finds nothing to
    change and ends the way the first did. *)
Lemma process_assets_loop_again (rs : dict GroupingRule.t) (todo : dict Asset.t)
  (n m : nat) :
  let p := process_assets_loop now_at rs n todo in
  process_assets_loop now_at rs m (fst (fst p)) = (fst (fst p), m, snd p).
Proof.
  revert n m. induction todo as [|[k a] rest IH]; intros n m; simpl.
  - reflexivity.
  - destruct (process_asset now_at rs n a) as [[a' n']|e] eqn:E; simpl.
    + rewrite (process_asset_again _ _ _ m _ _ E). rewrite (IH n' m). reflexivity.
    + rewrite (process_asset_raise _ _ m _ _ E). reflexivity.
Qed.

End Closed_forms.

(** ** The condition evaluator *)

Lemma py_in_returns (v hay : string) :
  returns_iff (py_in (Some v) hay) (is_substring v hay).
Proof.
  exists (str_contains v hay). split; [reflexivity | apply str_contains_substring].
Qed.

Lemma existsb_returns {A : Type} (f : A -> bool) (l : list A) (P : A -> Prop) :
  (forall x, f x = true <-> P x) ->
  returns_iff (Ok (existsb f l)) (exists x, In x l /\ P x).
Proof.
  intros Hf. exists (existsb f l). split; [reflexivity|].
  rewrite existsb_exists. split; intros [x [Hin Hx]]; exists x; split; auto; apply Hf; exact Hx.
Qed.

(** C2. The evaluator is not total: it raises [TypeError] exactly on a
    [contains] condition on [type] or [name] whose [value] is absent, and
    returns a boolean on every other condition. *)
Theorem evaluate_condition_raises_iff (asset : Asset.t) (condition : GroupingCondition.t) :
  (_evaluate_condition asset condition = Raise TypeError
   <-> GroupingCondition.operator condition = CONTAINS
       /\ GroupingCondition.value condition = None
       /\ (GroupingCondition.field condition = "type"
           \/ GroupingCondition.field condition = "name"))
  /\ (forall e, _evaluate_condition asset condition = Raise e -> e = TypeError).
Proof.
  destruct condition as [f op v tk tv]. unfold _evaluate_condition. cbn.
  destruct (String.eqb_spec f "type") as [->|Hty].
  - destruct op, v; cbn; split;
      try (split; [discriminate | intros (H1 & H2 & H3); discriminate]);
      try (intros e H; congruence).
    split; [intros _; auto | reflexivity].
  - destruct (String.eqb_spec f "name") as [->|Hna].
    + destruct op, v; cbn; split;
        try (split; [discriminate | intros (H1 & H2 & H3); discriminate]);
        try (intros e H; congruence).
      split; [intros _; auto | reflexivity].
    + destruct (f =? "tag"); destruct op; cbn; split;
        try (intros e H; discriminate);
        (split; [discriminate | intros (H1 & H2 & [H3|H3]); congruence]).
Qed.

(** C4. The evaluator against the matching table. On [equals] for [type]
    and [name] and on the two [tag] rows it returns the boolean of the
    comparison of the table, and on any pair that is not in the table it
    returns false. On [contains] for [type] and [name] it returns the
    boolean of the comparison when the condition has a value, and raises
    [TypeError] when it has none, where the table has a comparison that
    does not hold. Strings are compared character by character: equality
    is equality of strings and [contains] is the occurrence of the value
    as a contiguous run of characters. *)
Theorem evaluate_condition_table (asset : Asset.t) (condition : GroupingCondition.t) :
  let field := GroupingCondition.field condition in
  let operator := GroupingCondition.operator condition in
  let value := GroupingCondition.value condition in
  let tag_key := GroupingCondition.tag_key condition in
  let tag_value := GroupingCondition.tag_value condition in
  let r := _evaluate_condition asset condition in
  (field = "type" -> operator = EQUALS ->
   returns_iff r (value = Some (Asset.type asset)))
  /\ (field = "type" -> operator = CONTAINS ->
      match value with
      | Some v => returns_iff r (is_substring v (Asset.type asset))
      | None => r = Raise TypeError
      end)
  /\ (field = "name" -> operator = EQUALS ->
      returns_iff r (value = Some (Asset.name asset)))
  /\ (field = "name" -> operator = CONTAINS ->
      match value with
      | Some v => returns_iff r (is_substring v (Asset.name asset))
      | None => r = Raise TypeError
      end)
  /\ (field = "tag" -> operator = EXISTS ->
      returns_iff r (exists tag, In tag (Asset.tags asset)
                                 /\ tag_key = Some (Tag.key tag)))
  /\ (field = "tag" -> operator = EQUALS ->
      returns_iff r (exists tag, In tag (Asset.tags asset)
                                 /\ (tag_key = Some (Tag.key tag)
                                     /\ tag_value = Some (Tag.value tag))))
  /\ (~ (field = "type" /\ (operator = EQUALS \/ operator = CONTAINS)) ->
      ~ (field = "name" /\ (operator = EQUALS \/ operator = CONTAINS)) ->
      ~ (field = "tag" /\ (operator = EXISTS \/ operator = EQUALS)) ->
      r = Ok false)
  /\ (r = Ok true ->
      (field = "type" /\ operator = EQUALS /\ value = Some (Asset.type asset))
      \/ (field = "type" /\ operator = CONTAINS
          /\ exists v, value = Some v /\ is_substring v (Asset.type asset))
      \/ (field = "name" /\ operator = EQUALS /\ value = Some (Asset.name asset))
      \/ (field = "name" /\ operator = CONTAINS
          /\ exists v, value = Some v /\ is_substring v (Asset.name asset))
      \/ (field = "tag" /\ operator = EXISTS
          /\ exists tag, In tag (Asset.tags asset) /\ tag_key = Some (Tag.key tag))
      \/ (field = "tag" /\ operator = EQUALS
          /\ exists tag, In tag (Asset.tags asset)
                         /\ tag_key = Some (Tag.key tag)
                         /\ tag_value = Some (Tag.value tag))).
Proof.
  destruct condition as [f op v tk tv]. cbn.
  assert (Heq : forall s, returns_iff (Ok (py_eq s v)) (v = Some s)).
  { intros s. exists (py_eq s v). split; [reflexivity | apply py_eq_true]. }
  assert (Hex : returns_iff
                  (Ok (existsb (fun tag => py_eq (Tag.key tag) tk) (Asset.tags asset)))
                  (exists tag, In tag (Asset.tags asset) /\ tk = Some (Tag.key tag))).
  { apply existsb_returns. intros x. apply py_eq_true. }
  assert (Hex2 : returns_iff
                   (Ok (existsb (fun tag => py_eq (Tag.key tag) tk
                                            && py_eq (Tag.value tag) tv)
                                (Asset.tags asset)))
                   (exists tag, In tag (Asset.tags asset)
                                /\ (tk = Some (Tag.key tag)
                                    /\ tv = Some (Tag.value tag)))).
  { apply existsb_returns. intros x.
    rewrite andb_true_iff, !py_eq_true. reflexivity. }
  unfold _evaluate_condition. cbn.
  repeat match goal with |- _ /\ _ => split end.
  - intros -> ->. cbn. apply Heq.
  - intros -> ->. destruct v as [v0|]; cbn; [apply py_in_returns | reflexivity].
  - intros -> ->. cbn. apply Heq.
  - intros -> ->. destruct v as [v0|]; cbn; [apply py_in_returns | reflexivity].
  - intros -> ->. cbn. exact Hex.
  - intros -> ->. cbn. exact Hex2.
  - intros H1 H2 H3.
    destruct (String.eqb_spec f "type") as [->|Hty].
    { destruct op; [exfalso; apply H1; auto | exfalso; apply H1; auto | reflexivity]. }
    destruct (String.eqb_spec f "name") as [->|Hna].
    { destruct op; [exfalso; apply H2; auto | exfalso; apply H2; auto | reflexivity]. }
    destruct (String.eqb_spec f "tag") as [->|Htg].
    { destruct op; [exfalso; apply H3; auto | reflexivity | exfalso; apply H3; auto]. }
    reflexivity.
  - destruct (String.eqb_spec f "type") as [->|Hty].
    { destruct op; cbn.
      - intros H. left. injection H as H. apply py_eq_true in H. auto.
      - destruct v as [v0|]; cbn; [|discriminate].
        intros H. injection H as H. apply str_contains_substring in H.
        right; left. split; [reflexivity|]. split; [reflexivity|]. exists v0. auto.
      - discriminate. }
    destruct (String.eqb_spec f "name") as [->|Hna].
    { destruct op; cbn.
      - intros H. right; right; left. injection H as H. apply py_eq_true in H. auto.
      - destruct v as [v0|]; cbn; [|discriminate].
        intros H. injection H as H. apply str_contains_substring in H.
        right; right; right; left.
        split; [reflexivity|]. split; [reflexivity|]. exists v0. auto.
      - discriminate. }
    destruct (String.eqb_spec f "tag") as [->|Htg]; [|discriminate].
    destruct op; cbn.
    + intros H. injection H as H. apply existsb_exists in H.
      destruct H as (tag & Hin & Ht). apply andb_true_iff in Ht.
      destruct Ht as [Ht1 Ht2]. apply py_eq_true in Ht1, Ht2.
      do 5 right. split; [reflexivity|]. split; [reflexivity|]. exists tag. auto.
    + discriminate.
    + intros H. injection H as H. apply existsb_exists in H.
      destruct H as (tag & Hin & Ht). apply py_eq_true in Ht.
      do 4 right; left. split; [reflexivity|]. split; [reflexivity|]. exists tag. auto.
Qed.

(** ** Rule resolution *)

Lemma evaluate_condition_ignores_group (g : option string) (asset : Asset.t)
  (condition : GroupingCondition.t) :
  _evaluate_condition (Asset.set_group_name g asset) condition
  = _evaluate_condition asset condition.
Proof. reflexivity. Qed.

Lemma evaluate_rules_ignores_group (g : option string) (rs : dict GroupingRule.t)
  (asset : Asset.t) :
  _evaluate_rules rs (Asset.set_group_name g asset) = _evaluate_rules rs asset.
Proof.
  unfold _evaluate_rules. induction (dict_values rs) as [|r l IH]; simpl.
  - reflexivity.
  - rewrite IH.
    replace (rule_matches (Asset.set_group_name g asset) r) with (rule_matches asset r);
      [reflexivity|].
    unfold rule_matches. induction (GroupingRule.conditions r) as [|c cs IHc]; simpl.
    + reflexivity.
    + rewrite evaluate_condition_ignores_group, IHc. reflexivity.
Qed.

Lemma create_rule_rules (now_at : nat -> Z) (uuid4_at : nat -> string)
  (rule : GroupingRule.t) (w : World) :
  rules (service (fst (create_rule now_at uuid4_at rule w)))
  = dict_set (uuid4_at (uuid_reads w))
             (new_rule_of rule (uuid4_at (uuid_reads w)) (now_at (clock_reads w)))
             (rules (service w)).
Proof.
  rewrite create_rule_eq. cbv zeta.
  destruct (_process_existing_assets now_at _) as [w2 [u|e]] eqn:E;
    apply (f_equal fst) in E; simpl in E; subst w2; reflexivity.
Qed.

(** *** Where resolution returns *)

Lemma evaluate_condition_returns (asset : Asset.t) (condition : GroupingCondition.t) :
  has_value condition -> exists b, _evaluate_condition asset condition = Ok b.
Proof.
  destruct condition as [f op v tk tv]. unfold has_value, _evaluate_condition. cbn.
  intros H.
  destruct (String.eqb_spec f "type") as [->|Hty].
  - destruct op; try (eexists; reflexivity).
    destruct v as [v|]; [eexists; reflexivity | exfalso; apply H; auto].
  - destruct (String.eqb_spec f "name") as [->|Hna].
    + destruct op; try (eexists; reflexivity).
      destruct v as [v|]; [eexists; reflexivity | exfalso; apply H; auto].
    + destruct (f =? "tag"); destruct op; eexists; reflexivity.
Qed.

Lemma rule_matches_returns (asset : Asset.t) (rule : GroupingRule.t) :
  Forall has_value (GroupingRule.conditions rule) ->
  exists b, rule_matches asset rule = Ok b.
Proof.
  unfold rule_matches. induction 1 as [|c cs Hc Hcs IH]; simpl.
  - eexists; reflexivity.
  - destruct (evaluate_condition_returns asset c Hc) as [[|] ->];
      [exact IH | eexists; reflexivity].
Qed.

Lemma evaluate_rules_returns (rs : dict GroupingRule.t) (asset : Asset.t) :
  rules_have_values rs -> exists g, _evaluate_rules rs asset = Ok g.
Proof.
  unfold rules_have_values, _evaluate_rules.
  induction 1 as [|r l Hr Hl IH]; simpl.
  - eexists; reflexivity.
  - destruct (rule_matches_returns asset r Hr) as [[|] ->];
      [eexists; reflexivity | exact IH].
Qed.

Lemma process_existing_assets_returns (now_at : nat -> Z) (w : World) :
  rules_have_values (rules (service w)) ->
  snd (_process_existing_assets now_at w) = Ok tt.
Proof.
  intros Hrs. unfold _process_existing_assets. cbn.
  generalize (clock_reads w). induction (assets (service w)) as [|[k a] rest IH];
    intros n; simpl.
  - reflexivity.
  - unfold process_asset.
    destruct (evaluate_rules_returns _ a Hrs) as [g ->].
    destruct (negb (truthy (Asset.group_name a))); [destruct (truthy g)|];
      simpl; apply IH.
Qed.

Lemma py_all_false {A : Type} (f : A -> result bool) (l : list A) :
  py_all f l = Ok false
  <-> exists pre x post,
        l = pre ++ x :: post
        /\ Forall (fun y => f y = Ok true) pre
        /\ f x = Ok false.
Proof.
  induction l as [|x l IH]; simpl.
  - split; [discriminate | intros (pre & y & post & H & _); destruct pre; discriminate].
  - destruct (f x) as [[|]|e] eqn:E.
    + rewrite IH. split.
      * intros (pre & y & post & -> & Hpre & Hy). exists (x :: pre), y, post.
        split; [reflexivity|]. split; [constructor; assumption | exact Hy].
      * intros (pre & y & post & Hl & Hpre & Hy). destruct pre as [|z pre].
        -- simpl in Hl. injection Hl as <- _. congruence.
        -- simpl in Hl. injection Hl as <- ->. exists pre, y, post.
           split; [reflexivity|]. split; [inversion Hpre; assumption | exact Hy].
    + split; [|reflexivity]. intros _. exists [], x, l.
      split; [reflexivity|]. split; [constructor | exact E].
    + split; [discriminate|].
      intros (pre & y & post & Hl & Hpre & Hy). destruct pre as [|z pre].
      * simpl in Hl. injection Hl as <- _. congruence.
      * simpl in Hl. injection Hl as <- _. inversion Hpre. congruence.
Qed.

Lemma evaluate_condition_valueless (asset : Asset.t) (c : GroupingCondition.t) :
  GroupingCondition.operator c = CONTAINS ->
  GroupingCondition.value c = None ->
  GroupingCondition.field c = "type" \/ GroupingCondition.field c = "name" ->
  _evaluate_condition asset c = Raise TypeError.
Proof.
  destruct c as [f op v tk tv]. cbn. intros -> -> [-> | ->]; reflexivity.
Qed.

Lemma py_all_raise_at {A : Type} (f : A -> result bool) (pre post : list A) (x : A)
  (e : PyExc) :
  Forall (fun y => f y = Ok true) pre -> f x = Raise e ->
  py_all f (pre ++ x :: post) = Raise e.
Proof.
  intros Hpre Hx. induction Hpre as [|y pre Hy Hpre IH]; simpl.
  - rewrite Hx. reflexivity.
  - rewrite Hy. exact IH.
Qed.

Lemma evaluate_rules_loop_raise_at (asset : Asset.t) (pre post : list GroupingRule.t)
  (rule : GroupingRule.t) (e : PyExc) :
  Forall (fun r => rule_matches asset r = Ok false) pre ->
  rule_matches asset rule = Raise e ->
  evaluate_rules_loop (pre ++ rule :: post) asset = Raise e.
Proof.
  intros Hpre Hrule. induction Hpre as [|r pre Hr Hpre IH]; simpl.
  - rewrite Hrule. reflexivity.
  - rewrite Hr. exact IH.
Qed.

(** C3. Resolution goes over the rules in the order of their creation: a
    rule created under a new identifier is consulted after all the others.
    A rule matches exactly when every one of its conditions matches, so a
    rule without conditions matches every asset, and it does not match
    exactly when one of its conditions does not match after conditions
    that match. The result is the group name of the first rule that
    matches after rules that do not match, whatever rules follow it, and
    none when every rule does not match. Where resolution reaches a
    [contains] condition on [type] or [name] that has no value, it raises
    [TypeError]: it returns neither the group name of a matching rule that
    comes later nor none. *)
Theorem evaluate_rules_first_match (now_at : nat -> Z) (uuid4_at : nat -> string)
  (asset : Asset.t) :
  (forall w rule,
      dict_get (uuid4_at (uuid_reads w)) (rules (service w)) = None ->
      dict_values (rules (service (fst (create_rule now_at uuid4_at rule w))))
      = dict_values (rules (service w))
        ++ [new_rule_of rule (uuid4_at (uuid_reads w)) (now_at (clock_reads w))])
  /\ (forall rule,
         rule_matches asset rule = Ok true
         <-> Forall (fun c => _evaluate_condition asset c = Ok true)
                    (GroupingRule.conditions rule))
  /\ (forall rule, GroupingRule.conditions rule = [] -> rule_matches asset rule = Ok true)
  /\ (forall rs pre rule post,
         dict_values rs = pre ++ rule :: post ->
         Forall (fun r => rule_matches asset r = Ok false) pre ->
         rule_matches asset rule = Ok true ->
         _evaluate_rules rs asset = Ok (Some (GroupingRule.group_name rule)))
  /\ (forall rs pre R1 mid R2 post,
         dict_values rs = pre ++ R1 :: mid ++ R2 :: post ->
         Forall (fun r => rule_matches asset r = Ok false) pre ->
         rule_matches asset R1 = Ok true ->
         rule_matches asset R2 = Ok true ->
         _evaluate_rules rs asset = Ok (Some (GroupingRule.group_name R1)))
  /\ (forall rs g,
         _evaluate_rules rs asset = Ok (Some g) ->
         exists pre rule post,
           dict_values rs = pre ++ rule :: post
           /\ Forall (fun r => rule_matches asset r = Ok false) pre
           /\ rule_matches asset rule = Ok true
           /\ GroupingRule.group_name rule = g)
  /\ (forall rs,
         _evaluate_rules rs asset = Ok None
         <-> Forall (fun r => rule_matches asset r = Ok false) (dict_values rs))
  /\ (forall rule,
         rule_matches asset rule = Ok false
         <-> exists cpre c cpost,
               GroupingRule.conditions rule = cpre ++ c :: cpost
               /\ Forall (fun c' => _evaluate_condition asset c' = Ok true) cpre
               /\ _evaluate_condition asset c = Ok false)
  /\ (forall rs pre rule post cpre c cpost,
         dict_values rs = pre ++ rule :: post ->
         Forall (fun r => rule_matches asset r = Ok false) pre ->
         GroupingRule.conditions rule = cpre ++ c :: cpost ->
         Forall (fun c' => _evaluate_condition asset c' = Ok true) cpre ->
         GroupingCondition.operator c = CONTAINS ->
         GroupingCondition.value c = None ->
         GroupingCondition.field c = "type" \/ GroupingCondition.field c = "name" ->
         _evaluate_rules rs asset = Raise TypeError).
Proof.
  repeat match goal with |- _ /\ _ => split end.
  - intros w rule Hfresh. rewrite create_rule_rules.
    apply dict_values_set_fresh. exact Hfresh.
  - intros rule. apply py_all_true.
  - intros rule H. unfold rule_matches. rewrite H. reflexivity.
  - intros rs pre rule post Hrs Hpre Hrule. unfold _evaluate_rules. rewrite Hrs.
    apply evaluate_rules_loop_first; assumption.
  - intros rs pre R1 mid R2 post Hrs Hpre H1 _. unfold _evaluate_rules. rewrite Hrs.
    apply evaluate_rules_loop_first; assumption.
  - intros rs g H. apply evaluate_rules_loop_some. exact H.
  - intros rs. apply evaluate_rules_loop_none.
  - intros rule. apply py_all_false.
  - intros rs pre rule post cpre c cpost Hrs Hpre Hcs Hcpre Hop Hv Hf.
    unfold _evaluate_rules. rewrite Hrs.
    apply evaluate_rules_loop_raise_at; [exact Hpre|].
    unfold rule_matches. rewrite Hcs.
    apply py_all_raise_at; [exact Hcpre|].
    apply evaluate_condition_valueless; assumption.
Qed.

(** ** Updating assets and rules *)

(** C5. [update_asset] returns none on an identifier that is not in the
    asset mapping. On one that is, it takes the descriptive fields of the
    payload, keeps the identifier and [created_at] of the stored asset,
    sets [updated_at] to the clock reading, resolves the group of the
    merged asset (the group it had before plays no part in it) and, when
    resolution returns, stores and returns the asset with that result as
    its [group_name], none included. When resolution raises, which it does
    on a stored rule with a [contains] condition without a value,
    [update_asset] raises too: the clock has been read, and nothing is
    merged into the store. *)
Theorem update_asset_merges_and_regroups (now_at : nat -> Z) (w : World)
  (asset_id : string) (asset : Asset.t) :
  (dict_get asset_id (assets (service w)) = None ->
   update_asset now_at asset_id asset w = (w, Ok None))
  /\ (forall current group_name,
         dict_get asset_id (assets (service w)) = Some current ->
         let now := now_at (clock_reads w) in
         let merged := merged_asset_of current asset asset_id now in
         _evaluate_rules (rules (service w)) merged = Ok group_name ->
         let updated :=
           Asset.Build (Asset.name asset) (Asset.type asset) (Asset.tags asset)
             (Asset.cloud_account asset) (Asset.owner_id asset) (Asset.region asset)
             (Some asset_id) group_name (Asset.created_at current) (Some now) in
         update_asset now_at asset_id asset w
         = (with_assets (dict_set asset_id updated (assets (service w))) (tick_clock w),
            Ok (Some updated))
         /\ get_asset asset_id (fst (update_asset now_at asset_id asset w))
            = (fst (update_asset now_at asset_id asset w), Ok (Some updated))
         /\ forall g,
              _evaluate_rules (rules (service w)) (Asset.set_group_name g merged)
              = Ok group_name)
  /\ (forall current e,
         dict_get asset_id (assets (service w)) = Some current ->
         let now := now_at (clock_reads w) in
         let merged := merged_asset_of current asset asset_id now in
         _evaluate_rules (rules (service w)) merged = Raise e ->
         update_asset now_at asset_id asset w = (tick_clock w, Raise e)
         /\ get_asset asset_id (fst (update_asset now_at asset_id asset w))
            = (fst (update_asset now_at asset_id asset w), Ok (Some current))).
Proof.
  split; [|split].
  - intros H. rewrite update_asset_eq, H. reflexivity.
  - intros current group_name Hget now merged Hev updated.
    assert (E : update_asset now_at asset_id asset w
                = (with_assets (dict_set asset_id updated (assets (service w)))
                               (tick_clock w),
                   Ok (Some updated))).
    { rewrite update_asset_eq, Hget. cbv zeta. fold now. fold merged.
      rewrite Hev. reflexivity. }
    split; [exact E|]. split.
    + rewrite E. unfold get_asset, bind, get_self, ret. cbn.
      rewrite dict_get_set_same. reflexivity.
    + intros g. rewrite evaluate_rules_ignores_group. exact Hev.
  - intros current e Hget now merged Hev.
    assert (E : update_asset now_at asset_id asset w = (tick_clock w, Raise e)).
    { rewrite update_asset_eq, Hget. cbv zeta. fold now. fold merged.
      rewrite Hev. reflexivity. }
    split; [exact E|]. rewrite E. unfold get_asset, bind, get_self, ret. cbn.
    rewrite Hget. reflexivity.
Qed.

(** C9. An update aimed at an identifier that is not in its mapping
    returns none and leaves the world as it was: both mappings, and the
    clock, which is not read. *)
Theorem update_absent_id_is_noop (now_at : nat -> Z) (w : World) (id : string)
  (asset : Asset.t) (rule : GroupingRule.t) :
  (dict_get id (assets (service w)) = None ->
   update_asset now_at id asset w = (w, Ok None))
  /\ (dict_get id (rules (service w)) = None ->
      update_rule now_at id rule w = (w, Ok None)).
Proof.
  split; intros H.
  - rewrite update_asset_eq, H. reflexivity.
  - rewrite update_rule_eq, H. reflexivity.
Qed.

(** C1. [update_rule] on an identifier that is in the rule mapping never
    gets as far as merging: the call of the [GroupingRule] constructor
    raises [TypeError], because the dump of the current rule already holds
    every keyword that follows it. Nothing is stored and no asset is
    reprocessed. *)
Theorem update_rule_present_raises (now_at : nat -> Z) (w : World) (rule_id : string)
  (rule current : GroupingRule.t) :
  dict_get rule_id (rules (service w)) = Some current ->
  exists w',
    update_rule now_at rule_id rule w = (w', Raise TypeError)
    /\ service w' = service w.
Proof.
  intros H. rewrite update_rule_eq, H.
  destruct (GroupingRule_model_dump _ _ _).
  - exists (tick_clock w). split; reflexivity.
  - exists w. split; reflexivity.
Qed.

(** ** The reprocessing pass *)

Lemma process_existing_assets_get (now_at : nat -> Z) (w : World) (k : string)
  (a : Asset.t) :
  dict_get k (assets (service w)) = Some a ->
  let w' := fst (_process_existing_assets now_at w) in
  exists a',
    dict_get k (assets (service w')) = Some a'
    /\ (a' = a
        \/ visited now_at (rules (service w)) (clock_reads w) (clock_reads w') a a')
    /\ (snd (_process_existing_assets now_at w) = Ok tt ->
        visited now_at (rules (service w)) (clock_reads w) (clock_reads w') a a').
Proof.
  intros H. exact (process_assets_loop_get now_at _ _ (clock_reads w) k a H).
Qed.

Lemma visited_grouped (now_at : nat -> Z) (rs : dict GroupingRule.t) (n nf : nat)
  (a a' : Asset.t) :
  truthy (Asset.group_name a) = true -> visited now_at rs n nf a a' -> a' = a.
Proof.
  intros Ht (m & m' & _ & _ & H). unfold process_asset in H. rewrite Ht in H.
  simpl in H. congruence.
Qed.

Lemma visited_ungrouped (now_at : nat -> Z) (rs : dict GroupingRule.t) (n nf : nat)
  (a a' : Asset.t) (g : option string) :
  truthy (Asset.group_name a) = false ->
  _evaluate_rules rs a = Ok g ->
  visited now_at rs n nf a a' ->
  if truthy g
  then exists m, n <= m < nf
                 /\ a' = Asset.set_updated_at (Some (now_at m)) (Asset.set_group_name g a)
  else a' = a.
Proof.
  intros Ht Ev (m & m' & Hn & Hnf & H). unfold process_asset in H.
  rewrite Ht, Ev in H. simpl in H. destruct (truthy g).
  - injection H as <- <-. exists m. split; [lia | reflexivity].
  - congruence.
Qed.

(** C7. A second reprocessing pass right after a first one changes
    nothing: the world after it is the world the first pass left (every
    asset, with its [group_name] and [updated_at], and the clock, which is
    not read again), and it ends the way the first one did. *)
Theorem process_existing_assets_idempotent (now_at : nat -> Z) (w : World) :
  let first := _process_existing_assets now_at w in
  _process_existing_assets now_at (fst first) = (fst first, snd first).
Proof.
  unfold _process_existing_assets. cbn.
  rewrite process_assets_loop_again. reflexivity.
Qed.

(** C10. A resolution that returns the empty string counts as no group in
    [create_asset] and in the reprocessing pass: the new asset is stored
    with no [group_name], and the pass leaves an asset without a
    [group_name] as it is. The pass takes an asset whose [group_name] is
    the empty string for an ungrouped one and gives it the non-empty name
    that resolution finds. [update_asset] stores the empty string. *)
Theorem empty_group_name_is_no_group (now_at : nat -> Z) (uuid4_at : nat -> string)
  (w : World) :
  (forall asset,
      let asset_id := uuid4_at (uuid_reads w) in
      let new_asset := new_asset_of asset asset_id (now_at (clock_reads w)) in
      _evaluate_rules (rules (service w)) new_asset = Ok (Some "") ->
      Asset.group_name new_asset = None
      /\ create_asset now_at uuid4_at asset w
         = (with_assets (dict_set asset_id new_asset (assets (service w)))
                        (tick_clock (tick_uuid w)),
            Ok new_asset))
  /\ (forall k a,
         dict_get k (assets (service w)) = Some a ->
         Asset.group_name a = None ->
         _evaluate_rules (rules (service w)) a = Ok (Some "") ->
         dict_get k (assets (service (fst (_process_existing_assets now_at w))))
         = Some a)
  /\ (forall k a g,
         dict_get k (assets (service w)) = Some a ->
         Asset.group_name a = Some "" ->
         _evaluate_rules (rules (service w)) a = Ok (Some g) ->
         g <> "" ->
         snd (_process_existing_assets now_at w) = Ok tt ->
         let w' := fst (_process_existing_assets now_at w) in
         exists m,
           clock_reads w <= m < clock_reads w'
           /\ dict_get k (assets (service w'))
              = Some (Asset.set_updated_at (Some (now_at m))
                        (Asset.set_group_name (Some g) a)))
  /\ (forall asset_id asset current,
         dict_get asset_id (assets (service w)) = Some current ->
         let merged :=
           merged_asset_of current asset asset_id (now_at (clock_reads w)) in
         _evaluate_rules (rules (service w)) merged = Ok (Some "") ->
         update_asset now_at asset_id asset w
         = (with_assets (dict_set asset_id (Asset.set_group_name (Some "") merged)
                                  (assets (service w)))
                        (tick_clock w),
            Ok (Some (Asset.set_group_name (Some "") merged)))).
Proof.
  repeat match goal with |- _ /\ _ => split end.
  - intros asset asset_id new_asset H. split; [reflexivity|].
    rewrite create_asset_eq. cbv zeta. fold asset_id. fold new_asset.
    rewrite H. reflexivity.
  - intros k a Hget Hnone Hev.
    destruct (process_existing_assets_get now_at w k a Hget) as (a' & Hg & Hor & _).
    rewrite Hg. destruct Hor as [->|Hv]; [reflexivity|].
    apply (visited_ungrouped _ _ _ _ _ _ (Some "")) in Hv;
      [simpl in Hv; congruence | rewrite Hnone; reflexivity | exact Hev].
  - intros k a g Hget Hempty Hev Hg Hok w'.
    destruct (process_existing_assets_get now_at w k a Hget) as (a' & Hget' & _ & Hv).
    specialize (Hv Hok).
    apply (visited_ungrouped _ _ _ _ _ _ (Some g)) in Hv;
      [| rewrite Hempty; reflexivity | exact Hev].
    assert (Ht : truthy (Some g) = true).
    { apply truthy_true. exists g. auto. }
    rewrite Ht in Hv. destruct Hv as (m & Hm & ->). exists m. split; assumption.
  - intros asset_id asset current Hget merged Hev.
    rewrite update_asset_eq, Hget. cbv zeta. fold merged. rewrite Hev. reflexivity.
Qed.

Lemma evaluate_rules_new_rule (rs : dict GroupingRule.t) (a : Asset.t)
  (rule : GroupingRule.t) (rule_id : string) (now : Z) :
  dict_get rule_id rs = None ->
  _evaluate_rules rs a = Ok None ->
  rule_matches a rule = Ok true ->
  _evaluate_rules (dict_set rule_id (new_rule_of rule rule_id now) rs) a
  = Ok (Some (GroupingRule.group_name rule)).
Proof.
  intros Hfresh Hnone Hrule. unfold _evaluate_rules in *.
  rewrite (dict_values_set_fresh _ _ _ Hfresh), evaluate_rules_loop_app, Hnone.
  simpl. change (rule_matches a (new_rule_of rule rule_id now)) with (rule_matches a rule).
  rewrite Hrule. reflexivity.
Qed.

(** C6, as the code has it. The reprocessing pass leaves an asset with a
    non-empty [group_name] as it is, and the body of its loop does not
    resolve the group of such an asset. For an asset whose [group_name] is
    none or empty, a pass that runs to its end assigns the name that
    resolution returns and sets [updated_at] to a fresh clock reading when
    that name is not empty, and leaves the asset as it is otherwise. So
    when [create_rule] returns, an asset without a group that the new rule
    matches and that no earlier rule matches has the group name of the new
    rule, provided that name is not empty. *)
Theorem reprocessing_claims_ungrouped_assets (now_at : nat -> Z)
  (uuid4_at : nat -> string) (w : World) (k : string) (a : Asset.t) :
  dict_get k (assets (service w)) = Some a ->
  (truthy (Asset.group_name a) = true ->
   (forall rs n, process_asset now_at rs n a = Ok (a, n))
   /\ dict_get k (assets (service (fst (_process_existing_assets now_at w))))
      = Some a)
  /\ (forall g,
         truthy (Asset.group_name a) = false ->
         _evaluate_rules (rules (service w)) a = Ok g ->
         snd (_process_existing_assets now_at w) = Ok tt ->
         let w' := fst (_process_existing_assets now_at w) in
         if truthy g
         then exists m,
             clock_reads w <= m < clock_reads w'
             /\ dict_get k (assets (service w'))
                = Some (Asset.set_updated_at (Some (now_at m))
                          (Asset.set_group_name g a))
         else dict_get k (assets (service w')) = Some a)
  /\ (forall rule new_rule w',
         truthy (Asset.group_name a) = false ->
         dict_get (uuid4_at (uuid_reads w)) (rules (service w)) = None ->
         _evaluate_rules (rules (service w)) a = Ok None ->
         rule_matches a rule = Ok true ->
         GroupingRule.group_name rule <> "" ->
         create_rule now_at uuid4_at rule w = (w', Ok new_rule) ->
         exists m,
           clock_reads w < m < clock_reads w'
           /\ dict_get k (assets (service w'))
              = Some (Asset.set_updated_at (Some (now_at m))
                        (Asset.set_group_name
                           (Some (GroupingRule.group_name rule)) a))).
Proof.
  intros Hget. repeat match goal with |- _ /\ _ => split end.
  - intros Ht. split.
    + intros rs n. unfold process_asset. rewrite Ht. reflexivity.
    + destruct (process_existing_assets_get now_at w k a Hget) as (a' & Hg & Hor & _).
      rewrite Hg. destruct Hor as [->|Hv]; [reflexivity|].
      rewrite (visited_grouped _ _ _ _ _ _ Ht Hv). reflexivity.
  - intros g Ht Hev Hok w'.
    destruct (process_existing_assets_get now_at w k a Hget) as (a' & Hg & _ & Hv).
    specialize (Hv Hok). apply (visited_ungrouped _ _ _ _ _ _ g Ht Hev) in Hv.
    fold w' in Hg, Hv. destruct (truthy g).
    + destruct Hv as (m & Hm & ->). exists m. split; assumption.
    + subst a'. exact Hg.
  - intros rule new_rule w' Ht Hfresh Hnone Hrule Hname Hcreate.
    rewrite create_rule_eq in Hcreate. cbv zeta in Hcreate.
    set (w1 := with_rules _ _) in Hcreate.
    assert (Hget1 : dict_get k (assets (service w1)) = Some a) by exact Hget.
    destruct (process_existing_assets_get now_at w1 k a Hget1) as (a' & Hg & _ & Hv).
    destruct (_process_existing_assets now_at w1) as [w2 [[]|e]] eqn:E;
      [|discriminate].
    injection Hcreate as <- _. simpl in Hg, Hv. specialize (Hv eq_refl).
    apply (visited_ungrouped _ _ _ _ _ _
             (Some (GroupingRule.group_name rule)) Ht) in Hv.
    + assert (Htr : truthy (Some (GroupingRule.group_name rule)) = true).
      { apply truthy_true. eexists. split; [reflexivity | exact Hname]. }
      rewrite Htr in Hv. destruct Hv as (m & Hm & ->). exists m.
      split; [|exact Hg]. change (clock_reads w1) with (S (clock_reads w)) in Hm. lia.
    + apply evaluate_rules_new_rule; assumption.
Qed.

(** C6, as stated, fails in two ways. A new rule that matches an ungrouped
    asset and whose [group_name] is empty leaves the asset without a
    group. A new rule with a proper name that matches an ungrouped asset
    leaves it without a group when an earlier rule with an empty
    [group_name] matches the asset too. *)
Lemma create_rule_ungrouped_asset_counterexample :
  (let w := fst (create_asset sample_now sample_uuid sample_asset init_world) in
   let rule :=
     rule_payload ""
       [GroupingCondition.Build "type" EQUALS (Some "ec2-instance") None None] None in
   exists a w' new_rule a',
     dict_get "a" (assets (service w)) = Some a
     /\ Asset.group_name a = None
     /\ rule_matches a rule = Ok true
     /\ create_rule sample_now sample_uuid rule w = (w', Ok new_rule)
     /\ dict_get "a" (assets (service w')) = Some a'
     /\ Asset.group_name a' = None
     /\ Asset.group_name a' <> Some (GroupingRule.group_name rule))
  /\ (let w :=
        run_ops sample_now sample_uuid
          [OpCreateRule (rule_payload "" [] None); OpCreateAsset sample_asset]
          init_world in
      let rule := rule_payload "production-instances" [] None in
      exists a w' new_rule a',
        dict_get "ba" (assets (service w)) = Some a
        /\ Asset.group_name a = None
        /\ rule_matches a rule = Ok true
        /\ create_rule sample_now sample_uuid rule w = (w', Ok new_rule)
        /\ dict_get "ba" (assets (service w')) = Some a'
        /\ Asset.group_name a' = None
        /\ Asset.group_name a' <> Some (GroupingRule.group_name rule)).
Proof.
  split; cbv zeta; do 4 eexists;
    (split; [vm_compute; reflexivity|]);
    (split; [reflexivity|]);
    (split; [reflexivity|]);
    (split; [vm_compute; reflexivity|]);
    (split; [vm_compute; reflexivity|]);
    (split; [reflexivity | discriminate]).
Qed.

(** ** Timestamps along a run *)

Section Invariant.

Variable now_at : nat -> Z.
Variable uuid4_at : nat -> string.

(** The clock does not go back and no identifier is drawn twice. *)
Hypothesis now_at_mono : forall i j, i <= j -> (now_at i <= now_at j)%Z.
Hypothesis uuid4_at_inj : forall i j, uuid4_at i = uuid4_at j -> i = j.

Lemma stamped_weaken (n n' : nat) (a : Asset.t) :
  n <= n' -> stamped now_at n a -> stamped now_at n' a.
Proof.
  intros Hn (i & j & Hij & Hj & Hc & Hu). exists i, j.
  split; [exact Hij|]. split; [lia|]. split; assumption.
Qed.

Lemma stamped_set_group_name (n : nat) (g : option string) (a : Asset.t) :
  stamped now_at n a -> stamped now_at n (Asset.set_group_name g a).
Proof. intros H. exact H. Qed.

Lemma stamped_visited (rs : dict GroupingRule.t) (n nf : nat) (a a' : Asset.t) :
  stamped now_at n a -> n <= nf -> visited now_at rs n nf a a' ->
  stamped now_at nf a' /\ Asset.created_at a' = Asset.created_at a.
Proof.
  intros Hs Hn (m & m' & Hm & Hm' & H). apply process_asset_inv in H.
  destruct H as [(-> & _ & _) | (g & _ & _ & _ & -> & ->)].
  - split; [apply (stamped_weaken n); assumption | reflexivity].
  - split; [|reflexivity].
    destruct Hs as (i & j & Hij & Hj & Hc & Hu). exists i, m.
    split; [lia|]. split; [lia|]. split; [exact Hc | reflexivity].
Qed.

Lemma process_existing_assets_ok (w : World) :
  world_ok now_at uuid4_at w ->
  world_ok now_at uuid4_at (fst (_process_existing_assets now_at w)).
Proof.
  intros Hok k a' Hin.
  pose proof (process_assets_loop_clock now_at (rules (service w))
                (assets (service w)) (clock_reads w)) as Hclock.
  apply (process_assets_loop_In now_at) in Hin.
  destruct Hin as (a & Hin & Hor). destruct (Hok k a Hin) as [Hs Hk].
  split; [|exact Hk]. destruct Hor as [->|Hv].
  - apply (stamped_weaken (clock_reads w)); assumption.
  - exact (proj1 (stamped_visited _ _ _ _ _ Hs Hclock Hv)).
Qed.

Lemma world_ok_tick_clock (w : World) :
  world_ok now_at uuid4_at w -> world_ok now_at uuid4_at (tick_clock w).
Proof.
  intros Hok k a Hin. destruct (Hok k a Hin) as [Hs Hk]. split; [|exact Hk].
  apply (stamped_weaken (clock_reads w)); [simpl; lia | exact Hs].
Qed.

Lemma world_ok_tick_uuid (w : World) :
  world_ok now_at uuid4_at w -> world_ok now_at uuid4_at (tick_uuid w).
Proof.
  intros Hok k a Hin. destruct (Hok k a Hin) as [Hs (i & Hi & Hk)].
  split; [exact Hs|]. exists i. split; [simpl; lia | exact Hk].
Qed.

Lemma world_ok_with_rules (w : World) (d : dict GroupingRule.t) :
  world_ok now_at uuid4_at w -> world_ok now_at uuid4_at (with_rules d w).
Proof. intros Hok k a Hin. exact (Hok k a Hin). Qed.

Lemma world_ok_set_asset (w : World) (k : string) (a : Asset.t) :
  world_ok now_at uuid4_at w ->
  stamped now_at (clock_reads w) a ->
  (exists i, i < uuid_reads w /\ k = uuid4_at i) ->
  world_ok now_at uuid4_at (with_assets (dict_set k a (assets (service w))) w).
Proof.
  intros Hok Hs Hk k' a' Hin. simpl in Hin. apply dict_set_In in Hin.
  destruct Hin as [[-> ->] | Hin]; [split; assumption | exact (Hok k' a' Hin)].
Qed.

Lemma run_op_ok (op : Op) (w : World) :
  world_ok now_at uuid4_at w -> world_ok now_at uuid4_at (run_op now_at uuid4_at op w).
Proof.
  intros Hok. destruct op as [asset | asset_id asset | rule | rule_id rule |]; simpl.
  - rewrite create_asset_eq. cbv zeta.
    pose proof (world_ok_tick_clock _ (world_ok_tick_uuid w Hok)) as Hok1.
    destruct (_evaluate_rules _ _) as [g|e]; simpl; [|exact Hok1].
    apply (world_ok_set_asset _ _ _ Hok1).
    + assert (Hnew : stamped now_at (S (clock_reads w))
                       (new_asset_of asset (uuid4_at (uuid_reads w))
                                     (now_at (clock_reads w)))).
      { exists (clock_reads w), (clock_reads w). simpl. auto. }
      destruct (truthy g); [apply stamped_set_group_name|]; exact Hnew.
    + exists (uuid_reads w). simpl. auto.
  - rewrite update_asset_eq.
    destruct (dict_get asset_id (assets (service w))) as [current|] eqn:Hget;
      [|exact Hok].
    cbv zeta. pose proof (world_ok_tick_clock w Hok) as Hok1.
    destruct (_evaluate_rules _ _) as [g|e]; simpl; [|exact Hok1].
    destruct (Hok _ _ (dict_get_In _ _ _ Hget)) as [(i & j & Hij & Hj & Hc & Hu) Hk].
    apply (world_ok_set_asset _ _ _ Hok1); [|exact Hk].
    exists i, (clock_reads w). simpl. split; [lia|]. split; [lia|]. auto.
  - rewrite create_rule_eq. cbv zeta.
    set (w1 := with_rules _ _).
    assert (Hok1 : world_ok now_at uuid4_at w1).
    { apply world_ok_with_rules, world_ok_tick_clock, world_ok_tick_uuid, Hok. }
    pose proof (process_existing_assets_ok w1 Hok1) as Hok2.
    destruct (_process_existing_assets now_at w1) as [w2 [u|e]]; exact Hok2.
  - rewrite update_rule_eq.
    destruct (dict_get rule_id (rules (service w))); [|exact Hok].
    destruct (GroupingRule_model_dump _ _ _); [|exact Hok].
    apply world_ok_tick_clock. exact Hok.
  - apply process_existing_assets_ok. exact Hok.
Qed.

Lemma run_op_created_at (op : Op) (w : World) (k : string) (a : Asset.t) :
  world_ok now_at uuid4_at w ->
  dict_get k (assets (service w)) = Some a ->
  exists a',
    dict_get k (assets (service (run_op now_at uuid4_at op w))) = Some a'
    /\ Asset.created_at a' = Asset.created_at a.
Proof.
  intros Hok Hget.
  destruct (Hok _ _ (dict_get_In _ _ _ Hget)) as [Hs (i & Hi & Hk)].
  assert (Hpass : forall w1,
             assets (service w1) = assets (service w) ->
             clock_reads w <= clock_reads w1 ->
             exists a',
               dict_get k (assets (service (fst (_process_existing_assets now_at w1))))
               = Some a'
               /\ Asset.created_at a' = Asset.created_at a).
  { intros w1 Hassets Hclock. rewrite <- Hassets in Hget.
    destruct (process_existing_assets_get now_at w1 k a Hget) as (a' & Hg & Hor & _).
    exists a'. split; [exact Hg|]. destruct Hor as [->|Hv]; [reflexivity|].
    refine (proj2 (stamped_visited _ _ _ _ _ _ _ Hv)).
    - apply (stamped_weaken (clock_reads w)); assumption.
    - apply (process_assets_loop_clock now_at). }
  destruct op as [asset | asset_id asset | rule | rule_id rule |]; simpl.
  - rewrite create_asset_eq. cbv zeta.
    destruct (_evaluate_rules _ _) as [g|e]; simpl.
    + rewrite dict_get_set_other; [exists a; auto|].
      intros Heq. rewrite Hk in Heq. apply uuid4_at_inj in Heq. lia.
    + exists a. auto.
  - rewrite update_asset_eq.
    destruct (dict_get asset_id (assets (service w))) as [current|] eqn:Hcur;
      [|exists a; auto].
    cbv zeta. destruct (_evaluate_rules _ _) as [g|e]; simpl; [|exists a; auto].
    destruct (String.eqb_spec asset_id k) as [->|Hne].
    + rewrite dict_get_set_same. eexists. split; [reflexivity|]. simpl. congruence.
    + rewrite dict_get_set_other; [exists a; auto | exact Hne].
  - rewrite create_rule_eq. cbv zeta. set (w1 := with_rules _ _).
    destruct (Hpass w1 eq_refl) as (a' & Hg & Hc); [simpl; lia|].
    destruct (_process_existing_assets now_at w1) as [w2 [u|e]]; exists a'; auto.
  - rewrite update_rule_eq.
    destruct (dict_get rule_id (rules (service w))); [|exists a; auto].
    destruct (GroupingRule_model_dump _ _ _); exists a; auto.
  - apply Hpass; [reflexivity | lia].
Qed.

Lemma run_ops_ok (ops : list Op) (w : World) :
  world_ok now_at uuid4_at w -> world_ok now_at uuid4_at (run_ops now_at uuid4_at ops w).
Proof.
  revert w. induction ops as [|op ops IH]; intros w Hok; simpl.
  - exact Hok.
  - apply IH. apply run_op_ok. exact Hok.
Qed.

Lemma run_ops_created_at (ops : list Op) (w : World) (k : string) (a : Asset.t) :
  world_ok now_at uuid4_at w ->
  dict_get k (assets (service w)) = Some a ->
  exists a',
    dict_get k (assets (service (run_ops now_at uuid4_at ops w))) = Some a'
    /\ Asset.created_at a' = Asset.created_at a.
Proof.
  revert w a. induction ops as [|op ops IH]; intros w a Hok Hget; simpl.
  - exists a. auto.
  - destruct (run_op_created_at op w k a Hok Hget) as (a1 & Hget1 & Hc1).
    destruct (IH _ a1 (run_op_ok op w Hok) Hget1) as (a' & Hget' & Hc').
    exists a'. split; [exact Hget' | congruence].
Qed.

Lemma init_world_ok : world_ok now_at uuid4_at init_world.
Proof. intros k a []. Qed.

(** C8. Along any run of create asset, update asset, create rule, update
    rule and reprocessing pass on a new service, with a clock that does
    not go back and identifiers that are never drawn twice: every stored
    asset has a [created_at] and an [updated_at], the second no earlier
    than the first, and an asset that is in the store stays in it, under
    the same identifier and with the same [created_at], after any further
    operations. *)
Theorem timestamps_invariant (ops1 ops2 : list Op) (k : string) (a : Asset.t) :
  let w1 := run_ops now_at uuid4_at ops1 init_world in
  let w2 := run_ops now_at uuid4_at ops2 w1 in
  dict_get k (assets (service w1)) = Some a ->
  (exists c u,
      Asset.created_at a = Some c /\ Asset.updated_at a = Some u /\ (c <= u)%Z)
  /\ (exists a' c u,
         dict_get k (assets (service w2)) = Some a'
         /\ Asset.created_at a' = Asset.created_at a
         /\ Asset.created_at a' = Some c
         /\ Asset.updated_at a' = Some u
         /\ (c <= u)%Z).
Proof.
  intros w1 w2 Hget.
  assert (Hok1 : world_ok now_at uuid4_at w1) by (apply run_ops_ok, init_world_ok).
  assert (Hok2 : world_ok now_at uuid4_at w2) by (apply run_ops_ok, Hok1).
  assert (Hle : forall w0 k0 a0,
             world_ok now_at uuid4_at w0 ->
             dict_get k0 (assets (service w0)) = Some a0 ->
             exists c u,
               Asset.created_at a0 = Some c /\ Asset.updated_at a0 = Some u
               /\ (c <= u)%Z).
  { intros w0 k0 a0 Hok0 Hget0.
    destruct (Hok0 _ _ (dict_get_In _ _ _ Hget0)) as [(i & j & Hij & _ & Hc & Hu) _].
    exists (now_at i), (now_at j). split; [exact Hc|]. split; [exact Hu|].
    apply now_at_mono. exact Hij. }
  split; [exact (Hle w1 k a Hok1 Hget)|].
  destruct (run_ops_created_at ops2 w1 k a Hok1 Hget) as (a' & Hget' & Hc').
  destruct (Hle w2 k a' Hok2 Hget') as (c & u & Hc & Hu & Hcu).
  exists a', c, u. auto.
Qed.

End Invariant.

(** * The properties on the sample data *)

Lemma sample_uuid_length (n : nat) : String.length (sample_uuid n) = S n.
Proof. induction n as [|n IH]; simpl; [reflexivity | rewrite IH; reflexivity]. Qed.

Lemma sample_uuid_inj (i j : nat) : sample_uuid i = sample_uuid j -> i = j.
Proof.
  intros H. apply (f_equal String.length) in H.
  rewrite !sample_uuid_length in H. congruence.
Qed.

Lemma sample_now_mono (i j : nat) : i <= j -> (sample_now i <= sample_now j)%Z.
Proof. unfold sample_now. lia. Qed.

(** A [contains] condition without a value, on the sample asset. *)
Example contains_without_value_raises :
  _evaluate_condition sample_asset
    (GroupingCondition.Build "type" CONTAINS None None None) = Raise TypeError
  /\ rule_matches sample_asset
       (rule_payload "g" [GroupingCondition.Build "name" CONTAINS None None None] None)
     = Raise TypeError
  /\ _evaluate_condition sample_asset
       (GroupingCondition.Build "type" EQUALS None None None) = Ok false
  /\ _evaluate_condition sample_asset
       (GroupingCondition.Build "tag" EXISTS None None None) = Ok false.
Proof. repeat split. Qed.

(** [contains] tells upper case from lower case. *)
Example contains_is_case_sensitive :
  _evaluate_condition sample_asset
    (GroupingCondition.Build "name" CONTAINS (Some "Prod") None None) = Ok false
  /\ _evaluate_condition sample_asset
       (GroupingCondition.Build "name" CONTAINS (Some "prod") None None) = Ok true
  /\ ~ is_substring "Prod" "test-instance-prod".
Proof.
  split; [reflexivity|]. split; [reflexivity|].
  intros H. apply str_contains_substring in H. discriminate.
Qed.

(** The three-condition rule of [tests/services/test_grouping.py]. *)
Example test_complex_rule_matching :
  let rule :=
    rule_payload "production-instances"
      [GroupingCondition.Build "type" EQUALS (Some "ec2-instance") None None;
       GroupingCondition.Build "name" CONTAINS (Some "prod") None None;
       GroupingCondition.Build "tag" EQUALS None (Some "env") (Some "prod")]
      (Some "Production Instances") in
  let w := fst (create_rule sample_now sample_uuid rule init_world) in
  let one := create_asset sample_now sample_uuid
               (asset_payload "prod-instance" "ec2-instance" [Tag.Build "env" "prod"]) w in
  let two := create_asset sample_now sample_uuid
               (asset_payload "dev-instance" "ec2-instance" [Tag.Build "env" "dev"])
               (fst one) in
  (exists a, snd one = Ok a /\ Asset.group_name a = Some "production-instances")
  /\ (exists a, snd two = Ok a /\ Asset.group_name a = None).
Proof. split; eexists; split; reflexivity. Qed.

Lemma update_rule_present_raises_witness :
  exists w',
    update_rule sample_now "a" sample_rule world_rule_then_asset = (w', Raise TypeError)
    /\ service w' = service world_rule_then_asset.
Proof.
  eapply (update_rule_present_raises sample_now world_rule_then_asset "a" sample_rule).
  vm_compute. reflexivity.
Defined.

Lemma evaluate_condition_table_witness :
  returns_iff
    (_evaluate_condition sample_asset
       (GroupingCondition.Build "type" EQUALS (Some "ec2-instance") None None))
    (Some "ec2-instance" = Some (Asset.type sample_asset))
  /\ returns_iff
       (_evaluate_condition sample_asset
          (GroupingCondition.Build "type" CONTAINS (Some "ec2") None None))
       (is_substring "ec2" (Asset.type sample_asset))
  /\ _evaluate_condition sample_asset
       (GroupingCondition.Build "type" CONTAINS None None None) = Raise TypeError
  /\ returns_iff
       (_evaluate_condition sample_asset
          (GroupingCondition.Build "name" EQUALS (Some "test") None None))
       (Some "test" = Some (Asset.name sample_asset))
  /\ returns_iff
       (_evaluate_condition sample_asset
          (GroupingCondition.Build "name" CONTAINS (Some "prod") None None))
       (is_substring "prod" (Asset.name sample_asset))
  /\ _evaluate_condition sample_asset
       (GroupingCondition.Build "name" CONTAINS None None None) = Raise TypeError
  /\ returns_iff
       (_evaluate_condition sample_asset
          (GroupingCondition.Build "tag" EXISTS None (Some "team") None))
       (exists tag, In tag (Asset.tags sample_asset) /\ Some "team" = Some (Tag.key tag))
  /\ returns_iff
       (_evaluate_condition sample_asset
          (GroupingCondition.Build "tag" EQUALS None (Some "env") (Some "prod")))
       (exists tag, In tag (Asset.tags sample_asset)
                    /\ (Some "env" = Some (Tag.key tag)
                        /\ Some "prod" = Some (Tag.value tag)))
  /\ _evaluate_condition sample_asset
       (GroupingCondition.Build "region" EQUALS (Some "us-east-1") None None) = Ok false.
Proof.
  split; [apply (evaluate_condition_table sample_asset
                   (GroupingCondition.Build "type" EQUALS (Some "ec2-instance") None None));
          reflexivity|].
  split; [exact (proj1 (proj2 (evaluate_condition_table sample_asset
                   (GroupingCondition.Build "type" CONTAINS (Some "ec2") None None)))
                   eq_refl eq_refl)|].
  split; [exact (proj1 (proj2 (evaluate_condition_table sample_asset
                   (GroupingCondition.Build "type" CONTAINS None None None)))
                   eq_refl eq_refl)|].
  split; [apply (evaluate_condition_table sample_asset
                   (GroupingCondition.Build "name" EQUALS (Some "test") None None));
          reflexivity|].
  split; [exact (proj1 (proj2 (proj2 (proj2 (evaluate_condition_table sample_asset
                   (GroupingCondition.Build "name" CONTAINS (Some "prod") None None)))))
                   eq_refl eq_refl)|].
  split; [exact (proj1 (proj2 (proj2 (proj2 (evaluate_condition_table sample_asset
                   (GroupingCondition.Build "name" CONTAINS None None None)))))
                   eq_refl eq_refl)|].
  split; [apply (evaluate_condition_table sample_asset
                   (GroupingCondition.Build "tag" EXISTS None (Some "team") None));
          reflexivity|].
  split; [apply (evaluate_condition_table sample_asset
                   (GroupingCondition.Build "tag" EQUALS None (Some "env") (Some "prod")));
          reflexivity|].
  apply (evaluate_condition_table sample_asset
           (GroupingCondition.Build "region" EQUALS (Some "us-east-1") None None));
    simpl; intros [H _]; discriminate.
Defined.

Lemma evaluate_rules_first_match_witness :
  let R1 := new_rule_of sample_rule "a" 0%Z in
  let R2 := new_rule_of catch_all_rule "ba" 1%Z in
  let R3 := new_rule_of bucket_rule "c" 2%Z in
  dict_values (rules (service (fst (create_rule sample_now sample_uuid catch_all_rule
                                      world_rule_then_asset))))
  = dict_values (rules (service world_rule_then_asset))
    ++ [new_rule_of catch_all_rule (sample_uuid 2) (sample_now 2)]
  /\ rule_matches sample_asset R2 = Ok true
  /\ _evaluate_rules [("c", R3); ("a", R1); ("ba", R2)] sample_asset
     = Ok (Some "production-instances")
  /\ _evaluate_rules [("ba", R2); ("c", R3); ("a", R1)] sample_asset
     = Ok (Some "everything")
  /\ _evaluate_rules [("c", R3)] sample_asset = Ok None
  /\ rule_matches sample_asset R3 = Ok false
  /\ (exists r1 r2,
         create_rule sample_now sample_uuid valueless_rule init_world
         = (run_ops sample_now sample_uuid [OpCreateRule valueless_rule] init_world,
            Ok r1)
         /\ create_rule sample_now sample_uuid catch_all_rule
              (run_ops sample_now sample_uuid [OpCreateRule valueless_rule] init_world)
            = (world_valueless_then_catch_all, Ok r2)
         /\ rule_matches sample_asset r2 = Ok true)
  /\ _evaluate_rules (rules (service world_valueless_then_catch_all)) sample_asset
     = Raise TypeError.
Proof.
  cbv zeta.
  destruct (evaluate_rules_first_match sample_now sample_uuid sample_asset)
    as (T1 & T2 & T3 & T4 & T5 & T6 & T7 & T8 & T9).
  split; [apply T1; reflexivity|].
  split; [apply T3; reflexivity|].
  split; [apply (T5 _ [new_rule_of bucket_rule "c" 2%Z] (new_rule_of sample_rule "a" 0%Z)
                    [] (new_rule_of catch_all_rule "ba" 1%Z) []);
          [reflexivity | repeat constructor | reflexivity | reflexivity]|].
  split; [apply (T4 _ [] (new_rule_of catch_all_rule "ba" 1%Z)
                    [new_rule_of bucket_rule "c" 2%Z; new_rule_of sample_rule "a" 0%Z]);
          [reflexivity | constructor | reflexivity]|].
  split; [apply T7; repeat constructor|].
  split.
  { apply T8.
    exists [], (GroupingCondition.Build "type" EQUALS (Some "s3-bucket") None None), [].
    split; [reflexivity|]. split; [constructor | reflexivity]. }
  split.
  { eexists. eexists. split; [vm_compute; reflexivity|].
    split; [vm_compute; reflexivity | reflexivity]. }
  apply (T9 _ [] (new_rule_of valueless_rule "a" (sample_now 0))
            [new_rule_of catch_all_rule "ba" (sample_now 1)]
            [] (GroupingCondition.Build "type" CONTAINS None None None) []);
    [reflexivity | constructor | reflexivity | constructor
     | reflexivity | reflexivity | left; reflexivity].
Defined.

Lemma update_asset_merges_and_regroups_witness :
  update_asset sample_now "zz" database_payload world_rule_then_asset
  = (world_rule_then_asset, Ok None)
  /\ (exists current updated,
         dict_get "ba" (assets (service world_rule_then_asset)) = Some current
         /\ Asset.group_name current = Some "production-instances"
         /\ updated
            = Asset.Build "orders-db" "rds-instance" []
                (CloudAccount.Build "123" "main") "user1" "us-east-1"
                (Some "ba") None (Asset.created_at current) (Some (sample_now 2))
         /\ update_asset sample_now "ba" database_payload world_rule_then_asset
            = (with_assets
                 (dict_set "ba" updated (assets (service world_rule_then_asset)))
                 (tick_clock world_rule_then_asset),
               Ok (Some updated)))
  /\ (exists current,
         dict_get "a" (assets (service world_valueless_rule)) = Some current
         /\ update_asset sample_now "a" database_payload world_valueless_rule
            = (tick_clock world_valueless_rule, Raise TypeError)
         /\ get_asset "a" (fst (update_asset sample_now "a" database_payload
                                  world_valueless_rule))
            = (fst (update_asset sample_now "a" database_payload world_valueless_rule),
               Ok (Some current))).
Proof.
  destruct (update_asset_merges_and_regroups sample_now world_rule_then_asset "zz"
              database_payload) as [Tabsent _].
  split; [apply Tabsent; reflexivity|].
  destruct (update_asset_merges_and_regroups sample_now world_rule_then_asset "ba"
              database_payload) as (_ & Tpresent & _).
  split.
  { eexists. eexists.
    split; [vm_compute; reflexivity|].
    split; [reflexivity|].
    split; [reflexivity|].
    apply (Tpresent _ None); reflexivity. }
  destruct (update_asset_merges_and_regroups sample_now world_valueless_rule "a"
              database_payload) as (_ & _ & Traise).
  eexists. split; [vm_compute; reflexivity|].
  apply (Traise _ TypeError); reflexivity.
Defined.

Lemma update_absent_id_is_noop_witness :
  update_asset sample_now "zz" database_payload world_rule_then_asset
  = (world_rule_then_asset, Ok None)
  /\ update_rule sample_now "zz" sample_rule world_rule_then_asset
     = (world_rule_then_asset, Ok None).
Proof.
  split;
    apply (update_absent_id_is_noop sample_now world_rule_then_asset "zz"
             database_payload sample_rule);
    reflexivity.
Defined.

Lemma empty_group_name_is_no_group_witness :
  (exists stored,
      Asset.group_name stored = None
      /\ create_asset sample_now sample_uuid database_payload world_empty_rule
         = (with_assets (dict_set "bba" stored (assets (service world_empty_rule)))
                        (tick_clock (tick_uuid world_empty_rule)),
            Ok stored))
  /\ (exists a,
         Asset.group_name a = None
         /\ dict_get "ba" (assets (service world_empty_rule)) = Some a
         /\ dict_get "ba" (assets (service (fst (_process_existing_assets sample_now
                                                   world_empty_rule))))
            = Some a)
  /\ (exists m,
         4 <= m < clock_reads (fst (_process_existing_assets sample_now world_blank_group))
         /\ dict_get "k" (assets (service (fst (_process_existing_assets sample_now
                                                  world_blank_group))))
            = Some (Asset.set_updated_at (Some (sample_now m))
                      (Asset.set_group_name (Some "everything") blank_group_asset)))
  /\ (exists stored,
         Asset.group_name stored = Some ""
         /\ update_asset sample_now "ba" database_payload world_empty_rule
            = (with_assets (dict_set "ba" stored (assets (service world_empty_rule)))
                           (tick_clock world_empty_rule),
               Ok (Some stored))).
Proof.
  destruct (empty_group_name_is_no_group sample_now sample_uuid world_empty_rule)
    as (Tcreate & Tpass & _ & Tupdate).
  destruct (empty_group_name_is_no_group sample_now sample_uuid world_blank_group)
    as (_ & _ & Tblank & _).
  split.
  { eexists. apply (Tcreate database_payload). reflexivity. }
  split.
  { eexists. split; [|split; [vm_compute; reflexivity|]].
    - reflexivity.
    - apply Tpass; reflexivity. }
  split.
  { apply (Tblank "k" blank_group_asset "everything");
      [reflexivity | reflexivity | reflexivity | discriminate | reflexivity]. }
  eexists. split; [|eapply (Tupdate "ba" database_payload); [vm_compute; reflexivity|]].
  - reflexivity.
  - reflexivity.
Defined.

Lemma reprocessing_claims_ungrouped_assets_witness :
  (exists a,
      dict_get "ba" (assets (service world_rule_then_asset)) = Some a
      /\ Asset.group_name a = Some "production-instances"
      /\ dict_get "ba" (assets (service (fst (_process_existing_assets sample_now
                                                world_rule_then_asset))))
         = Some a)
  /\ (exists m,
         4 <= m < clock_reads (fst (_process_existing_assets sample_now world_blank_group))
         /\ dict_get "k" (assets (service (fst (_process_existing_assets sample_now
                                                  world_blank_group))))
            = Some (Asset.set_updated_at (Some (sample_now m))
                      (Asset.set_group_name (Some "everything") blank_group_asset)))
  /\ (exists a w' new_rule m,
         dict_get "a" (assets (service world_asset_only)) = Some a
         /\ Asset.group_name a = None
         /\ create_rule sample_now sample_uuid sample_rule world_asset_only
            = (w', Ok new_rule)
         /\ clock_reads world_asset_only < m < clock_reads w'
         /\ dict_get "a" (assets (service w'))
            = Some (Asset.set_updated_at (Some (sample_now m))
                      (Asset.set_group_name (Some "production-instances") a))).
Proof.
  split.
  { eexists. split; [vm_compute; reflexivity|]. split; [reflexivity|].
    refine (proj2 (proj1 (reprocessing_claims_ungrouped_assets sample_now sample_uuid
                            world_rule_then_asset "ba" _ _) _));
      reflexivity. }
  split.
  { destruct (reprocessing_claims_ungrouped_assets sample_now sample_uuid
                world_blank_group "k" blank_group_asset eq_refl) as (_ & T & _).
    exact (T (Some "everything") eq_refl eq_refl eq_refl). }
  destruct (reprocessing_claims_ungrouped_assets sample_now sample_uuid
              world_asset_only "a"
              (new_asset_of sample_asset "a" (sample_now 0)) eq_refl) as (_ & _ & T).
  destruct (create_rule sample_now sample_uuid sample_rule world_asset_only)
    as [w' [new_rule|e]] eqn:E; [|vm_compute in E; discriminate].
  destruct (T sample_rule new_rule w') as (m & Hm & Hget);
    [reflexivity | reflexivity | reflexivity | reflexivity | discriminate | exact E |].
  exists (new_asset_of sample_asset "a" (sample_now 0)), w', new_rule, m.
  split; [reflexivity|]. split; [reflexivity|]. split; [reflexivity|].
  split; [exact Hm | exact Hget].
Defined.

Lemma timestamps_invariant_witness :
  let ops1 := [OpCreateAsset sample_asset] in
  let ops2 := [OpCreateRule sample_rule; OpUpdateAsset "a" database_payload;
               OpUpdateRule "ba" sample_rule; OpReprocess] in
  let a := new_asset_of sample_asset "a" (sample_now 0) in
  let w2 := run_ops sample_now sample_uuid ops2
              (run_ops sample_now sample_uuid ops1 init_world) in
  (exists c u,
      Asset.created_at a = Some c /\ Asset.updated_at a = Some u /\ (c <= u)%Z)
  /\ (exists a' c u,
         dict_get "a" (assets (service w2)) = Some a'
         /\ Asset.created_at a' = Asset.created_at a
         /\ Asset.created_at a' = Some c
         /\ Asset.updated_at a' = Some u
         /\ (c <= u)%Z).
Proof.
  cbv zeta.
  apply (timestamps_invariant sample_now sample_uuid sample_now_mono sample_uuid_inj
           [OpCreateAsset sample_asset]
           [OpCreateRule sample_rule; OpUpdateAsset "a" database_payload;
            OpUpdateRule "ba" sample_rule; OpReprocess]
           "a" (new_asset_of sample_asset "a" (sample_now 0))).
  reflexivity.
Defined.

(** C8, as stated, fails when the clock is set back between two readings:
    an asset created at one reading and updated, or grouped by the
    reprocessing pass of a rule creation, at a later and smaller one has
    an [updated_at] before its [created_at]. *)
Lemma timestamps_clock_set_back_counterexample :
  (let w := run_ops clock_set_back sample_uuid
              [OpCreateAsset sample_asset; OpUpdateAsset "a" database_payload]
              init_world in
   exists a c u,
     dict_get "a" (assets (service w)) = Some a
     /\ Asset.created_at a = Some c
     /\ Asset.updated_at a = Some u
     /\ (u < c)%Z)
  /\ (let w := run_ops clock_set_back sample_uuid
                 [OpCreateAsset sample_asset; OpCreateRule sample_rule]
                 init_world in
      exists a c u,
        dict_get "a" (assets (service w)) = Some a
        /\ Asset.group_name a = Some "production-instances"
        /\ Asset.created_at a = Some c
        /\ Asset.updated_at a = Some u
        /\ (u < c)%Z).
Proof.
  split; cbv zeta.
  - eexists. exists 100%Z, 50%Z. split; [vm_compute; reflexivity|].
    split; [reflexivity|]. split; [reflexivity | reflexivity].
  - eexists. exists 100%Z, 50%Z. split; [vm_compute; reflexivity|].
    split; [reflexivity|]. split; [reflexivity|]. split; reflexivity.
Qed.

(** * Further properties of the evaluator *)

Lemma str_app_assoc (a b c : string) : ((a ++ b) ++ c = a ++ (b ++ c))%string.
Proof. induction a as [|x a IH]; simpl; [reflexivity | rewrite IH; reflexivity]. Qed.

Lemma str_app_nil_r (a : string) : (a ++ "" = a)%string.
Proof. induction a as [|x a IH]; simpl; [reflexivity | rewrite IH; reflexivity]. Qed.

Lemma is_substring_refl (s : string) : is_substring s s.
Proof. exists ""%string, ""%string. simpl. rewrite str_app_nil_r. reflexivity. Qed.

Lemma is_substring_empty (s : string) : is_substring "" s.
Proof. exists ""%string, s. reflexivity. Qed.

Lemma is_substring_trans (u v w : string) :
  is_substring u v -> is_substring v w -> is_substring u w.
Proof.
  intros (p1 & q1 & ->) (p2 & q2 & ->).
  exists (p2 ++ p1)%string, (q1 ++ q2)%string.
  rewrite !str_app_assoc. reflexivity.
Qed.

Lemma existsb_Permutation {A : Type} (f : A -> bool) (l l' : list A) :
  Permutation l l' -> existsb f l = existsb f l'.
Proof.
  induction 1 as [| x l l' _ IH | x y l | l l' l'' _ IH1 _ IH2]; simpl.
  - reflexivity.
  - rewrite IH. reflexivity.
  - destruct (f x), (f y); reflexivity.
  - congruence.
Qed.

Lemma py_all_ext {A : Type} (f g : A -> result bool) (l : list A) :
  (forall x, f x = g x) -> py_all f l = py_all g l.
Proof.
  intros H. induction l as [|x l IH]; simpl; [reflexivity|].
  rewrite H, IH. reflexivity.
Qed.

Lemma evaluate_rules_loop_ext (a b : Asset.t) (rs : list GroupingRule.t) :
  (forall c, _evaluate_condition a c = _evaluate_condition b c) ->
  evaluate_rules_loop rs a = evaluate_rules_loop rs b.
Proof.
  intros H. induction rs as [|r rs IH]; simpl; [reflexivity|].
  unfold rule_matches. rewrite (py_all_ext _ _ _ H), IH. reflexivity.
Qed.

Lemma evaluate_condition_local (a b : Asset.t) (c : GroupingCondition.t) :
  Asset.name a = Asset.name b ->
  Asset.type a = Asset.type b ->
  Permutation (Asset.tags a) (Asset.tags b) ->
  _evaluate_condition a c = _evaluate_condition b c.
Proof.
  intros Hn Ht Hp. unfold _evaluate_condition. rewrite Hn, Ht.
  rewrite !(existsb_Permutation _ _ _ Hp). reflexivity.
Qed.

Lemma evaluate_rules_local (a b : Asset.t) (rs : dict GroupingRule.t) :
  Asset.name a = Asset.name b ->
  Asset.type a = Asset.type b ->
  Permutation (Asset.tags a) (Asset.tags b) ->
  _evaluate_rules rs a = _evaluate_rules rs b.
Proof.
  intros Hn Ht Hp. apply evaluate_rules_loop_ext.
  intros c. apply evaluate_condition_local; assumption.
Qed.

(** X1. The evaluator reads the name, the type and the tags of an asset and
    nothing else, and the order of the tags does not count: two assets with
    the same name and type and the same tags in any order get the same
    outcome (a boolean, a group, none or the exception) for every
    condition, every rule and every rule mapping. *)
Theorem evaluation_reads_name_type_tags (a b : Asset.t) :
  Asset.name a = Asset.name b ->
  Asset.type a = Asset.type b ->
  Permutation (Asset.tags a) (Asset.tags b) ->
  (forall c, _evaluate_condition a c = _evaluate_condition b c)
  /\ (forall r, rule_matches a r = rule_matches b r)
  /\ (forall rs, _evaluate_rules rs a = _evaluate_rules rs b).
Proof.
  intros Hn Ht Hp.
  assert (Hc : forall c, _evaluate_condition a c = _evaluate_condition b c).
  { intros c. apply evaluate_condition_local; assumption. }
  split; [exact Hc|]. split.
  - intros r. apply py_all_ext. exact Hc.
  - intros rs. apply evaluate_rules_local; assumption.
Qed.

(** X2. A condition that matches with [equals] matches with the weaker
    operator too: [contains] with the same value on [type] and [name],
    [exists] with the same key on [tag]. *)
Theorem equals_match_implies_weaker_match (asset : Asset.t) (field : string)
  (value tag_key tag_value : option string) :
  _evaluate_condition asset
    (GroupingCondition.Build field EQUALS value tag_key tag_value) = Ok true ->
  (field = "tag" ->
   _evaluate_condition asset
     (GroupingCondition.Build field EXISTS value tag_key tag_value) = Ok true)
  /\ (field <> "tag" ->
      _evaluate_condition asset
        (GroupingCondition.Build field CONTAINS value tag_key tag_value) = Ok true).
Proof.
  unfold _evaluate_condition. cbn.
  destruct (String.eqb_spec field "type") as [->|Hty].
  - intros H. split; [discriminate|]. intros _. injection H as H.
    apply py_eq_true in H. subst value. cbn. f_equal.
    apply str_contains_substring, is_substring_refl.
  - destruct (String.eqb_spec field "name") as [->|Hna].
    + intros H. split; [discriminate|]. intros _. injection H as H.
      apply py_eq_true in H. subst value. cbn. f_equal.
      apply str_contains_substring, is_substring_refl.
    + destruct (String.eqb_spec field "tag") as [->|Htg]; [|discriminate].
      intros H. split; [|intros Hne; exfalso; apply Hne; reflexivity].
      intros _. injection H as H. f_equal.
      apply existsb_exists in H. destruct H as (tag & Hin & Ht).
      apply andb_true_iff in Ht. apply existsb_exists. exists tag. tauto.
Qed.

(** X3. [contains] is monotone in its value: when a [contains] condition on
    [type] or [name] matches with the value [w], it matches with every
    value that occurs in [w]; with the empty string as value it matches
    every asset. *)
Theorem contains_matches_with_every_part (asset : Asset.t) (field : string)
  (tag_key tag_value : option string) :
  field = "type" \/ field = "name" ->
  (forall v w,
      _evaluate_condition asset
        (GroupingCondition.Build field CONTAINS (Some w) tag_key tag_value) = Ok true ->
      is_substring v w ->
      _evaluate_condition asset
        (GroupingCondition.Build field CONTAINS (Some v) tag_key tag_value) = Ok true)
  /\ _evaluate_condition asset
       (GroupingCondition.Build field CONTAINS (Some "") tag_key tag_value) = Ok true.
Proof.
  intros [-> | ->]; unfold _evaluate_condition; cbn; split;
    try (intros v w H Hvw; injection H as H; f_equal;
         apply str_contains_substring in H; apply str_contains_substring;
         exact (is_substring_trans _ _ _ Hvw H));
    f_equal; apply str_contains_substring, is_substring_empty.
Qed.

Lemma evaluate_condition_raise_char (asset : Asset.t) (c : GroupingCondition.t)
  (e : PyExc) :
  _evaluate_condition asset c = Raise e
  <-> e = TypeError
      /\ GroupingCondition.operator c = CONTAINS
      /\ GroupingCondition.value c = None
      /\ (GroupingCondition.field c = "type" \/ GroupingCondition.field c = "name").
Proof.
  destruct c as [f op v tk tv]. unfold _evaluate_condition. cbn.
  destruct (String.eqb_spec f "type") as [->|Hty].
  - destruct op, v; cbn; split; try discriminate;
      try (intros (_ & H1 & H2 & _); discriminate).
    + intros H. injection H as <-. auto.
    + intros (-> & _). reflexivity.
  - destruct (String.eqb_spec f "name") as [->|Hna].
    + destruct op, v; cbn; split; try discriminate;
        try (intros (_ & H1 & H2 & _); discriminate).
      * intros H. injection H as <-. auto.
      * intros (-> & _). reflexivity.
    + destruct (f =? "tag"); destruct op; cbn; split; try discriminate;
        intros (_ & _ & _ & [H|H]); congruence.
Qed.

Lemma py_all_raise {A : Type} (f : A -> result bool) (l : list A) (e : PyExc) :
  py_all f l = Raise e
  <-> exists pre x post,
        l = pre ++ x :: post
        /\ Forall (fun y => f y = Ok true) pre
        /\ f x = Raise e.
Proof.
  induction l as [|x l IH]; simpl.
  - split; [discriminate | intros (pre & y & post & H & _); destruct pre; discriminate].
  - destruct (f x) as [[|]|e'] eqn:E.
    + rewrite IH. split.
      * intros (pre & y & post & -> & Hpre & Hy). exists (x :: pre), y, post.
        split; [reflexivity|]. split; [constructor; assumption | exact Hy].
      * intros (pre & y & post & Hl & Hpre & Hy). destruct pre as [|z pre].
        -- simpl in Hl. injection Hl as <- _. congruence.
        -- simpl in Hl. injection Hl as <- ->. exists pre, y, post.
           split; [reflexivity|]. split; [inversion Hpre; assumption | exact Hy].
    + split; [discriminate|].
      intros (pre & y & post & Hl & Hpre & Hy). destruct pre as [|z pre].
      * simpl in Hl. injection Hl as <- _. congruence.
      * simpl in Hl. injection Hl as <- _. inversion Hpre. congruence.
    + split.
      * intros H. injection H as <-. exists [], x, l.
        split; [reflexivity|]. split; [constructor | exact E].
      * intros (pre & y & post & Hl & Hpre & Hy). destruct pre as [|z pre].
        -- simpl in Hl. injection Hl as <- _. congruence.
        -- simpl in Hl. injection Hl as <- _. inversion Hpre. congruence.
Qed.

Lemma evaluate_rules_loop_raise (asset : Asset.t) (rs : list GroupingRule.t) (e : PyExc) :
  evaluate_rules_loop rs asset = Raise e
  <-> exists pre rule post,
        rs = pre ++ rule :: post
        /\ Forall (fun r => rule_matches asset r = Ok false) pre
        /\ rule_matches asset rule = Raise e.
Proof.
  induction rs as [|r rs IH]; simpl.
  - split; [discriminate | intros (pre & y & post & H & _); destruct pre; discriminate].
  - destruct (rule_matches asset r) as [[|]|e'] eqn:E.
    + split; [discriminate|].
      intros (pre & y & post & Hl & Hpre & Hy). destruct pre as [|z pre].
      * simpl in Hl. injection Hl as <- _. congruence.
      * simpl in Hl. injection Hl as <- _. inversion Hpre. congruence.
    + rewrite IH. split.
      * intros (pre & y & post & -> & Hpre & Hy). exists (r :: pre), y, post.
        split; [reflexivity|]. split; [constructor; assumption | exact Hy].
      * intros (pre & y & post & Hl & Hpre & Hy). destruct pre as [|z pre].
        -- simpl in Hl. injection Hl as <- _. congruence.
        -- simpl in Hl. injection Hl as <- ->. exists pre, y, post.
           split; [reflexivity|]. split; [inversion Hpre; assumption | exact Hy].
    + split.
      * intros H. injection H as <-. exists [], r, rs.
        split; [reflexivity|]. split; [constructor | exact E].
      * intros (pre & y & post & Hl & Hpre & Hy). destruct pre as [|z pre].
        -- simpl in Hl. injection Hl as <- _. congruence.
        -- simpl in Hl. injection Hl as <- _. inversion Hpre. congruence.
Qed.

Lemma evaluate_rules_raise_TypeError (rs : dict GroupingRule.t) (asset : Asset.t)
  (e : PyExc) :
  _evaluate_rules rs asset = Raise e -> e = TypeError.
Proof.
  intros H. apply evaluate_rules_loop_raise in H.
  destruct H as (pre & rule & post & _ & _ & H).
  apply py_all_raise in H. destruct H as (cpre & c & cpost & _ & _ & H).
  apply evaluate_condition_raise_char in H. tauto.
Qed.

(** X4. Resolution raises exactly when it reaches a [contains] condition on
    [type] or [name] that has no value: the rules before the one that
    holds it do not match, and the conditions before it in that rule match.
    The exception is a [TypeError]. A condition without a value that comes
    after the first matching rule, or after a condition that does not
    match in its rule, does no harm. *)
Theorem evaluate_rules_raises_iff (rs : dict GroupingRule.t) (asset : Asset.t)
  (e : PyExc) :
  _evaluate_rules rs asset = Raise e
  <-> e = TypeError
      /\ exists pre rule post cpre c cpost,
           dict_values rs = pre ++ rule :: post
           /\ Forall (fun r => rule_matches asset r = Ok false) pre
           /\ GroupingRule.conditions rule = cpre ++ c :: cpost
           /\ Forall (fun c' => _evaluate_condition asset c' = Ok true) cpre
           /\ GroupingCondition.operator c = CONTAINS
           /\ GroupingCondition.value c = None
           /\ (GroupingCondition.field c = "type"
               \/ GroupingCondition.field c = "name").
Proof.
  unfold _evaluate_rules. rewrite evaluate_rules_loop_raise. split.
  - intros (pre & rule & post & Hrs & Hpre & H).
    apply py_all_raise in H. destruct H as (cpre & c & cpost & Hcs & Hcpre & H).
    apply evaluate_condition_raise_char in H. destruct H as (-> & Hop & Hv & Hf).
    split; [reflexivity|]. exists pre, rule, post, cpre, c, cpost. tauto.
  - intros (-> & pre & rule & post & cpre & c & cpost
            & Hrs & Hpre & Hcs & Hcpre & Hop & Hv & Hf).
    exists pre, rule, post. split; [exact Hrs|]. split; [exact Hpre|].
    apply py_all_raise. exists cpre, c, cpost. split; [exact Hcs|].
    split; [exact Hcpre|]. apply evaluate_condition_raise_char. tauto.
Qed.

(** * Further properties of the store *)

Lemma dict_set_fresh {V : Type} (k : string) (v : V) (d : dict V) :
  dict_get k d = None -> dict_set k v d = d ++ [(k, v)].
Proof.
  induction d as [|[k' v'] d IH]; simpl.
  - reflexivity.
  - destruct (k' =? k); [discriminate|]. intros H. rewrite (IH H). reflexivity.
Qed.

Lemma dict_keys_set_present {V : Type} (k : string) (v v0 : V) (d : dict V) :
  dict_get k d = Some v0 -> dict_keys (dict_set k v d) = dict_keys d.
Proof.
  unfold dict_keys. induction d as [|[k' v'] d IH]; simpl.
  - discriminate.
  - destruct (k' =? k) eqn:E.
    + apply String.eqb_eq in E. subst k'. reflexivity.
    + intros H. simpl. rewrite (IH H). reflexivity.
Qed.

Lemma new_asset_of_same (p p' : Asset.t) (asset_id : string) (now : Z) :
  same_descriptive_fields p p' -> new_asset_of p asset_id now = new_asset_of p' asset_id now.
Proof.
  intros (H1 & H2 & H3 & H4 & H5 & H6). unfold new_asset_of. congruence.
Qed.

Lemma merged_asset_of_same (current p p' : Asset.t) (asset_id : string) (now : Z) :
  same_descriptive_fields p p' ->
  merged_asset_of current p asset_id now = merged_asset_of current p' asset_id now.
Proof.
  intros (H1 & H2 & H3 & H4 & H5 & H6). unfold merged_asset_of. congruence.
Qed.

Lemma evaluate_rules_new_asset (rs : dict GroupingRule.t) (asset : Asset.t)
  (asset_id : string) (now : Z) :
  _evaluate_rules rs (new_asset_of asset asset_id now) = _evaluate_rules rs asset.
Proof. apply evaluate_rules_local; reflexivity. Qed.

Lemma get_asset_stored (k : string) (a : Asset.t) (d : dict Asset.t) (w : World) :
  get_asset k (with_assets (dict_set k a d) w)
  = (with_assets (dict_set k a d) w, Ok (Some a)).
Proof.
  unfold get_asset, bind, get_self, ret. cbn. rewrite dict_get_set_same. reflexivity.
Qed.

(** X5. When [create_asset] returns, the asset it returns has the six
    descriptive fields of the payload, the identifier just drawn, and the
    clock reading as both [created_at] and [updated_at]; its [group_name]
    is none or a non-empty name; and [get_asset] on its identifier, like
    the handler of [GET /assets/{asset_id}], returns that asset and leaves
    the store as it is. *)
Theorem create_asset_then_get_asset (now_at : nat -> Z) (uuid4_at : nat -> string)
  (w w' : World) (asset created : Asset.t) :
  create_asset now_at uuid4_at asset w = (w', Ok created) ->
  let asset_id := uuid4_at (uuid_reads w) in
  same_descriptive_fields created asset
  /\ Asset.id created = Some asset_id
  /\ Asset.created_at created = Some (now_at (clock_reads w))
  /\ Asset.updated_at created = Asset.created_at created
  /\ (Asset.group_name created = None \/ truthy (Asset.group_name created) = true)
  /\ get_asset asset_id w' = (w', Ok (Some created))
  /\ routes.get_asset asset_id w' = (w', Returned created).
Proof.
  intros H asset_id. rewrite create_asset_eq in H. cbv zeta in H. fold asset_id in H.
  destruct (_evaluate_rules _ _) as [g|e]; [|discriminate].
  injection H as <- <-. unfold routes.get_asset. rewrite get_asset_stored.
  destruct (truthy g) eqn:Hg; cbn; unfold same_descriptive_fields; cbn; tauto.
Qed.

(** X6. A new asset is grouped by the first rule that matches its payload:
    when the rules before a rule do not match the payload, the rule
    matches it and its group name is not empty, [create_asset] returns and
    stores the asset with that group name; when no rule matches the
    payload, it returns and stores the asset without a group. *)
Theorem create_asset_groups_by_first_match (now_at : nat -> Z)
  (uuid4_at : nat -> string) (w : World) (asset : Asset.t) :
  (forall pre rule post,
      dict_values (rules (service w)) = pre ++ rule :: post ->
      Forall (fun r => rule_matches asset r = Ok false) pre ->
      rule_matches asset rule = Ok true ->
      GroupingRule.group_name rule <> "" ->
      exists w' created,
        create_asset now_at uuid4_at asset w = (w', Ok created)
        /\ Asset.group_name created = Some (GroupingRule.group_name rule)
        /\ dict_get (uuid4_at (uuid_reads w)) (assets (service w')) = Some created)
  /\ (Forall (fun r => rule_matches asset r = Ok false) (dict_values (rules (service w))) ->
      exists w' created,
        create_asset now_at uuid4_at asset w = (w', Ok created)
        /\ Asset.group_name created = None
        /\ dict_get (uuid4_at (uuid_reads w)) (assets (service w')) = Some created).
Proof.
  split.
  - intros pre rule post Hrs Hpre Hrule Hname.
    rewrite create_asset_eq. cbv zeta. rewrite evaluate_rules_new_asset.
    unfold _evaluate_rules. rewrite Hrs.
    rewrite (evaluate_rules_loop_first _ _ _ _ Hpre Hrule).
    assert (Ht : truthy (Some (GroupingRule.group_name rule)) = true).
    { apply truthy_true. eexists. split; [reflexivity | exact Hname]. }
    rewrite Ht. eexists. eexists. split; [reflexivity|]. split; [reflexivity|].
    cbn. apply dict_get_set_same.
  - intros Hall. rewrite create_asset_eq. cbv zeta. rewrite evaluate_rules_new_asset.
    unfold _evaluate_rules. rewrite (proj2 (evaluate_rules_loop_none _ _) Hall). cbn.
    eexists. eexists. split; [reflexivity|]. split; [reflexivity|].
    apply dict_get_set_same.
Qed.

(** X7. The fields that the service keeps are taken from no payload:
    [create_asset] and [update_asset] give the same outcome and leave the
    same store for two payloads with the same six descriptive fields,
    whatever their [id], [group_name], [created_at] and [updated_at], and
    so does [create_rule] for two payloads with the same [group_name],
    [conditions] and [description]. *)
Theorem payload_internal_fields_ignored (now_at : nat -> Z) (uuid4_at : nat -> string)
  (w : World) :
  (forall p p',
      same_descriptive_fields p p' ->
      create_asset now_at uuid4_at p w = create_asset now_at uuid4_at p' w
      /\ forall asset_id,
           update_asset now_at asset_id p w = update_asset now_at asset_id p' w)
  /\ (forall r r',
         GroupingRule.group_name r = GroupingRule.group_name r' ->
         GroupingRule.conditions r = GroupingRule.conditions r' ->
         GroupingRule.description r = GroupingRule.description r' ->
         create_rule now_at uuid4_at r w = create_rule now_at uuid4_at r' w).
Proof.
  split.
  - intros p p' H. split.
    + rewrite !create_asset_eq. cbv zeta. rewrite (new_asset_of_same p p' _ _ H).
      reflexivity.
    + intros asset_id. rewrite !update_asset_eq.
      destruct (dict_get asset_id (assets (service w))) as [current|]; [|reflexivity].
      cbv zeta. rewrite (merged_asset_of_same current p p' _ _ H). reflexivity.
  - intros r r' H1 H2 H3. rewrite !create_rule_eq. cbv zeta.
    unfold new_rule_of. rewrite H1, H2, H3. reflexivity.
Qed.

(** X8. [create_asset] reads the clock and draws an identifier once, never
    touches the rules and never touches an asset stored under another
    identifier. When it raises, the exception is a [TypeError] and the
    asset mapping is as it was; when it returns and the identifier is new,
    the asset is added after the others. *)
Theorem create_asset_frame (now_at : nat -> Z) (uuid4_at : nat -> string)
  (w : World) (asset : Asset.t) :
  let res := create_asset now_at uuid4_at asset w in
  let asset_id := uuid4_at (uuid_reads w) in
  rules (service (fst res)) = rules (service w)
  /\ clock_reads (fst res) = S (clock_reads w)
  /\ uuid_reads (fst res) = S (uuid_reads w)
  /\ (forall k, k <> asset_id ->
                dict_get k (assets (service (fst res))) = dict_get k (assets (service w)))
  /\ (forall e, snd res = Raise e ->
                e = TypeError /\ assets (service (fst res)) = assets (service w))
  /\ (forall created,
         snd res = Ok created ->
         dict_get asset_id (assets (service w)) = None ->
         assets (service (fst res)) = assets (service w) ++ [(asset_id, created)]).
Proof.
  cbv zeta. rewrite create_asset_eq. cbv zeta.
  destruct (_evaluate_rules _ _) as [g|e] eqn:Ev; cbn.
  - repeat match goal with |- _ /\ _ => split end; try reflexivity.
    + intros k Hk. apply dict_get_set_other. congruence.
    + discriminate.
    + intros created H Hfresh. injection H as <-. apply dict_set_fresh. exact Hfresh.
  - repeat match goal with |- _ /\ _ => split end; try reflexivity.
    + intros e0 H. injection H as <-. split; [|reflexivity].
      exact (evaluate_rules_raise_TypeError _ _ _ Ev).
    + discriminate.
Qed.

(** X9. [update_asset] never touches the rules, draws no identifier, and
    neither adds, removes nor reorders the keys of the asset mapping; an
    asset stored under another identifier is left as it is. When it
    raises, the exception is a [TypeError], the clock has been read once
    and the asset mapping is as it was. *)
Theorem update_asset_frame (now_at : nat -> Z) (w : World) (asset_id : string)
  (asset : Asset.t) :
  let res := update_asset now_at asset_id asset w in
  rules (service (fst res)) = rules (service w)
  /\ uuid_reads (fst res) = uuid_reads w
  /\ dict_keys (assets (service (fst res))) = dict_keys (assets (service w))
  /\ (forall k, k <> asset_id ->
                dict_get k (assets (service (fst res))) = dict_get k (assets (service w)))
  /\ (forall e, snd res = Raise e ->
                e = TypeError
                /\ assets (service (fst res)) = assets (service w)
                /\ clock_reads (fst res) = S (clock_reads w)).
Proof.
  cbv zeta. rewrite update_asset_eq.
  destruct (dict_get asset_id (assets (service w))) as [current|] eqn:Hget.
  - cbv zeta. destruct (_evaluate_rules _ _) as [g|e] eqn:Ev; cbn.
    + repeat match goal with |- _ /\ _ => split end; try reflexivity.
      * exact (dict_keys_set_present _ _ _ _ Hget).
      * intros k Hk. apply dict_get_set_other. congruence.
      * discriminate.
    + repeat match goal with |- _ /\ _ => split end; try reflexivity.
      intros e0 H. injection H as <-.
      split; [exact (evaluate_rules_raise_TypeError _ _ _ Ev) | auto].
  - cbn. repeat match goal with |- _ /\ _ => split end; try reflexivity.
    discriminate.
Qed.

Lemma process_assets_loop_raise_TypeError (now_at : nat -> Z) (rs : dict GroupingRule.t)
  (todo : dict Asset.t) (n : nat) (e : PyExc) :
  snd (process_assets_loop now_at rs n todo) = Raise e -> e = TypeError.
Proof.
  revert n. induction todo as [|[k a] rest IH]; intros n; simpl.
  - discriminate.
  - destruct (process_asset now_at rs n a) as [[a' n']|e'] eqn:E; simpl.
    + apply IH.
    + intros H. injection H as <-. unfold process_asset in E.
      destruct (negb (truthy (Asset.group_name a))); [|discriminate].
      destruct (_evaluate_rules rs a) as [g|e0] eqn:Ev.
      * destruct (truthy g); discriminate.
      * injection E as <-. exact (evaluate_rules_raise_TypeError _ _ _ Ev).
Qed.

Lemma process_assets_loop_ok_In (now_at : nat -> Z) (rs : dict GroupingRule.t)
  (todo : dict Asset.t) (n : nat) (k : string) (a' : Asset.t) :
  snd (process_assets_loop now_at rs n todo) = Ok tt ->
  In (k, a') (fst (fst (process_assets_loop now_at rs n todo))) ->
  exists a m m', In (k, a) todo /\ process_asset now_at rs m a = Ok (a', m').
Proof.
  revert n. induction todo as [|[k0 a0] rest IH]; intros n; simpl.
  - intros _ [].
  - destruct (process_asset now_at rs n a0) as [[a0' n']|e] eqn:E; simpl;
      [|discriminate].
    intros Hok [H|H].
    + injection H as -> ->. exists a0, n, n'. split; [left; reflexivity | exact E].
    + destruct (IH n' Hok H) as (a & m & m' & Hin & Hp).
      exists a, m, m'. split; [right; exact Hin | exact Hp].
Qed.

(** X10. [create_rule] stores the new rule before it reprocesses the
    assets: whether it returns or raises, the rule built from the payload
    (its [group_name], [conditions] and [description], the identifier just
    drawn, the clock reading as both timestamps) is in the rule mapping
    under its identifier, after the others when the identifier is new, and
    no other rule is touched. It returns that rule; it raises, with a
    [TypeError], only from the reprocessing pass. No asset is added or
    removed. *)
Theorem create_rule_stores_rule_first (now_at : nat -> Z) (uuid4_at : nat -> string)
  (w : World) (rule : GroupingRule.t) :
  let res := create_rule now_at uuid4_at rule w in
  let rule_id := uuid4_at (uuid_reads w) in
  let new_rule := new_rule_of rule rule_id (now_at (clock_reads w)) in
  dict_get rule_id (rules (service (fst res))) = Some new_rule
  /\ (forall k, k <> rule_id ->
                dict_get k (rules (service (fst res))) = dict_get k (rules (service w)))
  /\ (dict_get rule_id (rules (service w)) = None ->
      rules (service (fst res)) = rules (service w) ++ [(rule_id, new_rule)])
  /\ (forall r, snd res = Ok r -> r = new_rule)
  /\ (forall e, snd res = Raise e -> e = TypeError)
  /\ dict_keys (assets (service (fst res))) = dict_keys (assets (service w))
  /\ uuid_reads (fst res) = S (uuid_reads w).
Proof.
  cbv zeta. rewrite create_rule_eq. cbv zeta.
  set (rule_id := uuid4_at (uuid_reads w)).
  set (new_rule := new_rule_of rule rule_id (now_at (clock_reads w))).
  set (w1 := with_rules _ _).
  assert (Hrules : rules (service (fst (_process_existing_assets now_at w1)))
                   = dict_set rule_id new_rule (rules (service w))) by reflexivity.
  assert (Hkeys : dict_keys (assets (service (fst (_process_existing_assets now_at w1))))
                  = dict_keys (assets (service w))).
  { exact (process_assets_loop_keys now_at _ _ _). }
  assert (Huuid : uuid_reads (fst (_process_existing_assets now_at w1))
                  = S (uuid_reads w)) by reflexivity.
  assert (Hraise : forall e, snd (_process_existing_assets now_at w1) = Raise e ->
                             e = TypeError).
  { intros e. apply process_assets_loop_raise_TypeError. }
  destruct (_process_existing_assets now_at w1) as [w2 [u|e]]; simpl in *;
    rewrite Hrules;
    (split; [apply dict_get_set_same|]);
    (split; [intros k Hk; apply dict_get_set_other; congruence|]);
    (split; [intros Hfresh; apply dict_set_fresh; exact Hfresh|]).
  - split; [intros r H; congruence|]. split; [discriminate|]. auto.
  - split; [discriminate|]. split; [intros e0 H; apply Hraise; congruence|]. auto.
Qed.

(** X11. The reprocessing pass never touches the rules, the keys of the
    asset mapping or their order. Whether it runs to its end or raises, it
    leaves each asset either exactly as it was, or, when the asset had no
    group (none or empty), with a non-empty [group_name] and a fresh clock
    reading as [updated_at]; the descriptive fields, [id] and [created_at]
    of an asset never change and no asset loses its group. *)
Theorem pass_only_groups_ungrouped (now_at : nat -> Z) (w : World) (k : string)
  (a : Asset.t) :
  dict_get k (assets (service w)) = Some a ->
  let w' := fst (_process_existing_assets now_at w) in
  rules (service w') = rules (service w)
  /\ dict_keys (assets (service w')) = dict_keys (assets (service w))
  /\ uuid_reads w' = uuid_reads w
  /\ exists a',
       dict_get k (assets (service w')) = Some a'
       /\ same_descriptive_fields a' a
       /\ Asset.id a' = Asset.id a
       /\ Asset.created_at a' = Asset.created_at a
       /\ (a' = a
           \/ (truthy (Asset.group_name a) = false
               /\ truthy (Asset.group_name a') = true
               /\ exists m, clock_reads w <= m < clock_reads w'
                            /\ Asset.updated_at a' = Some (now_at m))).
Proof.
  intros Hget w'. split; [reflexivity|].
  split; [exact (process_assets_loop_keys now_at _ _ _)|]. split; [reflexivity|].
  destruct (process_existing_assets_get now_at w k a Hget) as (a' & Hg & Hor & _).
  exists a'. split; [exact Hg|].
  assert (Hsame : same_descriptive_fields a a) by (unfold same_descriptive_fields; tauto).
  destruct Hor as [->|(m & m' & Hm & Hm' & Hp)]; [tauto|].
  apply process_asset_inv in Hp.
  destruct Hp as [(-> & _ & _) | (g & Ht & Ev & Hg' & -> & ->)]; [tauto|].
  split; [exact Hsame|]. split; [reflexivity|]. split; [reflexivity|].
  right. split; [exact Ht|]. split; [exact Hg'|].
  exists m. split; [|reflexivity]. fold w' in Hm'. lia.
Qed.

(** X12. After a reprocessing pass that runs to its end, no asset is left
    that the rules would group: every stored asset has a non-empty
    [group_name], or resolution on it returns none or the empty string. *)
Theorem pass_leaves_nothing_to_group (now_at : nat -> Z) (w : World) (k : string)
  (a' : Asset.t) :
  snd (_process_existing_assets now_at w) = Ok tt ->
  In (k, a') (assets (service (fst (_process_existing_assets now_at w)))) ->
  truthy (Asset.group_name a') = true
  \/ exists g, _evaluate_rules (rules (service w)) a' = Ok g /\ truthy g = false.
Proof.
  intros Hok Hin.
  destruct (process_assets_loop_ok_In now_at _ _ _ k a' Hok Hin)
    as (a & m & m' & _ & Hp).
  apply process_asset_inv in Hp.
  destruct Hp as [(-> & _ & [Ht | Hev]) | (g & _ & _ & Hg & -> & _)].
  - left. exact Ht.
  - right. exact Hev.
  - left. exact Hg.
Qed.

(** * Further properties along a run *)

Lemma dict_get_None_not_In {V : Type} (k : string) (d : dict V) :
  (forall v, ~ In (k, v) d) -> dict_get k d = None.
Proof.
  intros H. destruct (dict_get k d) as [v|] eqn:E; [|reflexivity].
  exfalso. exact (H v (dict_get_In _ _ _ E)).
Qed.

Lemma dict_set_In_other {V : Type} (k k0 : string) (v v0 : V) (d : dict V) :
  k <> k0 -> In (k, v) d -> In (k, v) (dict_set k0 v0 d).
Proof.
  intros Hne. induction d as [|[k' v'] d IH]; simpl; [intros []|].
  destruct (k' =? k0) eqn:E.
  - apply String.eqb_eq in E. subst k'.
    intros [H|H]; [congruence | right; exact H].
  - intros [H|H]; [left; exact H | right; exact (IH H)].
Qed.

Lemma In_dict_values {V : Type} (v : V) (d : dict V) :
  In v (dict_values d) -> exists k, In (k, v) d.
Proof.
  unfold dict_values. intros H. apply in_map_iff in H.
  destruct H as ([k v'] & Hv & Hin). simpl in Hv. subst v'. exists k. exact Hin.
Qed.

Lemma evaluate_rules_group_stored (rs : dict GroupingRule.t) (a : Asset.t) (g : string) :
  _evaluate_rules rs a = Ok (Some g) ->
  exists k r, In (k, r) rs /\ GroupingRule.group_name r = g.
Proof.
  intros H. apply evaluate_rules_loop_some in H.
  destruct H as (pre & rule & post & Hrs & _ & _ & Hg).
  destruct (In_dict_values rule rs) as [k Hin].
  - rewrite Hrs. apply in_or_app. right. left. reflexivity.
  - exists k, rule. split; assumption.
Qed.

Lemma create_rule_uuid_reads (now_at : nat -> Z) (uuid4_at : nat -> string)
  (rule : GroupingRule.t) (w : World) :
  uuid_reads (fst (create_rule now_at uuid4_at rule w)) = S (uuid_reads w).
Proof.
  rewrite create_rule_eq. cbv zeta.
  destruct (_process_existing_assets now_at _) as [w2 [u|e]] eqn:E;
    apply (f_equal fst) in E; simpl in E; subst w2; reflexivity.
Qed.

Section Runs.

Variable now_at : nat -> Z.
Variable uuid4_at : nat -> string.

(** No identifier is drawn twice. *)
Hypothesis uuid4_at_inj : forall i j, uuid4_at i = uuid4_at j -> i = j.

Lemma rules_ok_fresh (w : World) :
  rules_ok uuid4_at w -> dict_get (uuid4_at (uuid_reads w)) (rules (service w)) = None.
Proof.
  intros Hok. apply dict_get_None_not_In. intros r Hin.
  destruct (Hok _ _ Hin) as ((i & Hi & Hk) & _). apply uuid4_at_inj in Hk. lia.
Qed.

Lemma world_ok_fresh (w : World) (k : string) (a : Asset.t) :
  world_ok now_at uuid4_at w ->
  dict_get k (assets (service w)) = Some a ->
  uuid4_at (uuid_reads w) <> k.
Proof.
  intros Hok Hget Heq.
  destruct (Hok _ _ (dict_get_In _ _ _ Hget)) as (_ & i & Hi & Hk).
  rewrite Hk in Heq. apply uuid4_at_inj in Heq. lia.
Qed.

(** The rules after one operation: those before it, followed by the new
    rule when the operation is a rule creation. *)
Lemma run_op_rules (op : Op) (w : World) :
  rules_ok uuid4_at w ->
  rules (service (run_op now_at uuid4_at op w))
  = rules (service w)
    ++ match op with
       | OpCreateRule rule =>
           [(uuid4_at (uuid_reads w),
             new_rule_of rule (uuid4_at (uuid_reads w)) (now_at (clock_reads w)))]
       | _ => []
       end.
Proof.
  intros Hok. destruct op as [asset | asset_id asset | rule | rule_id rule |]; simpl.
  - rewrite create_asset_eq. cbv zeta.
    destruct (_evaluate_rules _ _); simpl; rewrite app_nil_r; reflexivity.
  - rewrite update_asset_eq.
    destruct (dict_get asset_id (assets (service w))); [cbv zeta|];
      [destruct (_evaluate_rules _ _)|]; simpl; rewrite app_nil_r; reflexivity.
  - rewrite create_rule_rules. apply dict_set_fresh, rules_ok_fresh, Hok.
  - rewrite update_rule_eq.
    destruct (dict_get rule_id (rules (service w)));
      [destruct (GroupingRule_model_dump _ _ _)|]; simpl; rewrite app_nil_r; reflexivity.
  - simpl. rewrite app_nil_r. reflexivity.
Qed.

Lemma run_op_uuid_reads (op : Op) (w : World) :
  uuid_reads w <= uuid_reads (run_op now_at uuid4_at op w).
Proof.
  destruct op as [asset | asset_id asset | rule | rule_id rule |]; simpl.
  - rewrite create_asset_eq. cbv zeta. destruct (_evaluate_rules _ _); simpl; lia.
  - rewrite update_asset_eq.
    destruct (dict_get asset_id (assets (service w))); [cbv zeta|];
      [destruct (_evaluate_rules _ _)|]; simpl; lia.
  - rewrite create_rule_uuid_reads. lia.
  - rewrite update_rule_eq.
    destruct (dict_get rule_id (rules (service w)));
      [destruct (GroupingRule_model_dump _ _ _)|]; simpl; lia.
  - simpl. lia.
Qed.

Lemma run_op_rules_ok (op : Op) (w : World) :
  rules_ok uuid4_at w -> rules_ok uuid4_at (run_op now_at uuid4_at op w).
Proof.
  intros Hok k r Hin. rewrite (run_op_rules op w Hok) in Hin.
  pose proof (run_op_uuid_reads op w) as Hle.
  apply in_app_or in Hin. destruct Hin as [Hin|Hin].
  - destruct (Hok k r Hin) as ((i & Hi & Hk) & Hrest).
    split; [exists i; split; [lia | exact Hk] | exact Hrest].
  - destruct op as [asset | asset_id asset | rule | rule_id rule |];
      try (destruct Hin; fail).
    destruct Hin as [Hin|[]]. injection Hin as <- <-.
    split; [|split; reflexivity].
    exists (uuid_reads w). split; [|reflexivity].
    simpl. rewrite create_rule_uuid_reads. lia.
Qed.

Lemma create_rule_world (rule : GroupingRule.t) (w : World) :
  fst (create_rule now_at uuid4_at rule w)
  = fst (_process_existing_assets now_at
           (with_rules
              (dict_set (uuid4_at (uuid_reads w))
                 (new_rule_of rule (uuid4_at (uuid_reads w)) (now_at (clock_reads w)))
                 (rules (service w)))
              (tick_clock (tick_uuid w)))).
Proof.
  rewrite create_rule_eq. cbv zeta.
  destruct (_process_existing_assets now_at _) as [w2 [u|e]]; reflexivity.
Qed.

Lemma process_existing_assets_assets_ok (w : World) :
  assets_ok w -> assets_ok (fst (_process_existing_assets now_at w)).
Proof.
  intros Hok k a' Hin. apply (process_assets_loop_In now_at) in Hin.
  destruct Hin as (a & Hin & Hor). destruct (Hok k a Hin) as [Hid Hgroup].
  destruct Hor as [->|(m & m' & _ & _ & Hp)]; [split; assumption|].
  apply process_asset_inv in Hp.
  destruct Hp as [(-> & _ & _) | (g & _ & Ev & _ & -> & _)]; [split; assumption|].
  split; [exact Hid|]. simpl. intros s Hs. subst g.
  exact (evaluate_rules_group_stored _ _ _ Ev).
Qed.

Lemma assets_ok_more_rules (w : World) (d : dict GroupingRule.t)
  (added : dict GroupingRule.t) :
  d = rules (service w) ++ added -> assets_ok w -> assets_ok (with_rules d w).
Proof.
  intros -> Hok k a Hin. destruct (Hok k a Hin) as [Hid Hgroup].
  split; [exact Hid|]. intros g Hg. destruct (Hgroup g Hg) as (k' & r & Hr & Hname).
  exists k', r. split; [|exact Hname]. simpl. apply in_or_app. left. exact Hr.
Qed.

Lemma run_op_assets_ok (op : Op) (w : World) :
  rules_ok uuid4_at w -> assets_ok w -> assets_ok (run_op now_at uuid4_at op w).
Proof.
  intros Hrules Hok.
  destruct op as [asset | asset_id asset | rule | rule_id rule |]; simpl.
  - rewrite create_asset_eq. cbv zeta.
    destruct (_evaluate_rules _ _) as [g|e] eqn:Ev; simpl; [|exact Hok].
    intros k a Hin. simpl in Hin. apply dict_set_In in Hin.
    destruct Hin as [[-> ->] | Hin]; [|exact (Hok k a Hin)].
    destruct (truthy g) eqn:Ht; simpl; (split; [reflexivity|]).
    + intros s Hs. subst g. exact (evaluate_rules_group_stored _ _ _ Ev).
    + discriminate.
  - rewrite update_asset_eq.
    destruct (dict_get asset_id (assets (service w))) as [current|]; [|exact Hok].
    cbv zeta. destruct (_evaluate_rules _ _) as [g|e] eqn:Ev; simpl; [|exact Hok].
    intros k a Hin. simpl in Hin. apply dict_set_In in Hin.
    destruct Hin as [[-> ->] | Hin]; [|exact (Hok k a Hin)].
    split; [reflexivity|]. simpl. intros s Hs. subst g.
    exact (evaluate_rules_group_stored _ _ _ Ev).
  - rewrite create_rule_world. apply process_existing_assets_assets_ok.
    apply (assets_ok_more_rules (tick_clock (tick_uuid w)) _
             [(uuid4_at (uuid_reads w),
               new_rule_of rule (uuid4_at (uuid_reads w)) (now_at (clock_reads w)))]).
    + apply dict_set_fresh. exact (rules_ok_fresh w Hrules).
    + exact Hok.
  - rewrite update_rule_eq.
    destruct (dict_get rule_id (rules (service w)));
      [destruct (GroupingRule_model_dump _ _ _)|]; exact Hok.
  - apply process_existing_assets_assets_ok. exact Hok.
Qed.

Lemma run_op_run_ok (op : Op) (w : World) :
  run_ok now_at uuid4_at w -> run_ok now_at uuid4_at (run_op now_at uuid4_at op w).
Proof.
  intros (H1 & H2 & H3). split; [apply run_op_ok; exact H1|].
  split; [apply run_op_rules_ok; exact H2 | apply run_op_assets_ok; assumption].
Qed.

Lemma run_ops_run_ok (ops : list Op) (w : World) :
  run_ok now_at uuid4_at w -> run_ok now_at uuid4_at (run_ops now_at uuid4_at ops w).
Proof.
  revert w. induction ops as [|op ops IH]; intros w Hok; simpl;
    [exact Hok | apply IH, run_op_run_ok, Hok].
Qed.

Lemma init_run_ok : run_ok now_at uuid4_at init_world.
Proof.
  split; [apply init_world_ok|]. split; intros k x [].
Qed.

Lemma process_existing_assets_sticky (w : World) (k : string) (a : Asset.t) :
  dict_get k (assets (service w)) = Some a ->
  truthy (Asset.group_name a) = true ->
  dict_get k (assets (service (fst (_process_existing_assets now_at w)))) = Some a.
Proof.
  intros Hget Ht.
  destruct (process_existing_assets_get now_at w k a Hget) as (a' & Hg & Hor & _).
  rewrite Hg. destruct Hor as [->|Hv]; [reflexivity|].
  rewrite (visited_grouped _ _ _ _ _ _ Ht Hv). reflexivity.
Qed.

Lemma run_op_sticky (op : Op) (w : World) (k : string) (a : Asset.t) :
  world_ok now_at uuid4_at w ->
  no_update_of k op ->
  dict_get k (assets (service w)) = Some a ->
  truthy (Asset.group_name a) = true ->
  dict_get k (assets (service (run_op now_at uuid4_at op w))) = Some a.
Proof.
  intros Hok Hop Hget Ht.
  destruct op as [asset | asset_id asset | rule | rule_id rule |]; simpl.
  - rewrite create_asset_eq. cbv zeta.
    destruct (_evaluate_rules _ _) as [g|e]; simpl; [|exact Hget].
    rewrite dict_get_set_other; [exact Hget | exact (world_ok_fresh w k a Hok Hget)].
  - rewrite update_asset_eq.
    destruct (dict_get asset_id (assets (service w))) as [current|]; [|exact Hget].
    cbv zeta. destruct (_evaluate_rules _ _) as [g|e]; simpl; [|exact Hget].
    rewrite dict_get_set_other; [exact Hget | exact Hop].
  - rewrite create_rule_world. apply process_existing_assets_sticky; assumption.
  - rewrite update_rule_eq.
    destruct (dict_get rule_id (rules (service w)));
      [destruct (GroupingRule_model_dump _ _ _)|]; exact Hget.
  - apply process_existing_assets_sticky; assumption.
Qed.

Lemma run_ops_sticky (ops : list Op) (w : World) (k : string) (a : Asset.t) :
  world_ok now_at uuid4_at w ->
  Forall (no_update_of k) ops ->
  dict_get k (assets (service w)) = Some a ->
  truthy (Asset.group_name a) = true ->
  dict_get k (assets (service (run_ops now_at uuid4_at ops w))) = Some a.
Proof.
  revert w. induction ops as [|op ops IH]; intros w Hok Hops Hget Ht; simpl.
  - exact Hget.
  - inversion Hops as [|? ? Hop Hrest]; subst.
    apply IH; [apply run_op_ok; exact Hok | exact Hrest | | exact Ht].
    apply run_op_sticky; assumption.
Qed.

Lemma run_ops_rules (ops : list Op) (w : World) :
  rules_ok uuid4_at w ->
  exists added,
    rules (service (run_ops now_at uuid4_at ops w)) = rules (service w) ++ added
    /\ List.length added = rule_creations ops.
Proof.
  revert w. induction ops as [|op ops IH]; intros w Hok; simpl.
  - exists []. rewrite app_nil_r. split; reflexivity.
  - destruct (IH _ (run_op_rules_ok op w Hok)) as (added & Hadded & Hlen).
    rewrite Hadded, (run_op_rules op w Hok), <- app_assoc.
    eexists. split; [reflexivity|]. rewrite length_app, Hlen.
    unfold rule_creations. destruct op; reflexivity.
Qed.

Lemma evaluate_rules_more_rules (rs added : dict GroupingRule.t) (a : Asset.t) :
  _evaluate_rules (rs ++ added) a
  = match _evaluate_rules rs a with
    | Ok None => _evaluate_rules added a
    | other => other
    end.
Proof.
  unfold _evaluate_rules, dict_values. rewrite map_app. apply evaluate_rules_loop_app.
Qed.

(** X13. A group sticks: along any run on a new service, an asset that has
    a non-empty [group_name] is left exactly as it is, [updated_at]
    included, by every operation other than an update of that very asset,
    whatever rules are created in the meantime. *)
Theorem grouped_asset_sticks (ops1 ops2 : list Op) (k : string) (a : Asset.t) :
  let w1 := run_ops now_at uuid4_at ops1 init_world in
  Forall (no_update_of k) ops2 ->
  dict_get k (assets (service w1)) = Some a ->
  truthy (Asset.group_name a) = true ->
  dict_get k (assets (service (run_ops now_at uuid4_at ops2 w1))) = Some a.
Proof.
  intros w1 Hops Hget Ht. apply run_ops_sticky; try assumption.
  apply run_ops_ok, init_world_ok.
Qed.

(** X14. The rule mapping only grows: along any run on a new service no
    stored rule is changed, removed or moved, since each operation leaves
    the rules as they are or, for a rule creation, adds one rule after the
    others. The mapping holds one rule for each rule creation of the run,
    those that raised included. *)
Theorem rules_only_grow (ops1 ops2 : list Op) :
  let w1 := run_ops now_at uuid4_at ops1 init_world in
  let w2 := run_ops now_at uuid4_at ops2 w1 in
  List.length (rules (service w1)) = rule_creations ops1
  /\ exists added,
       rules (service w2) = rules (service w1) ++ added
       /\ List.length added = rule_creations ops2.
Proof.
  intros w1 w2. split.
  - destruct (run_ops_rules ops1 init_world (proj1 (proj2 init_run_ok)))
      as (added & Hadded & Hlen).
    fold w1 in Hadded. rewrite Hadded. exact Hlen.
  - apply run_ops_rules.
    exact (proj1 (proj2 (run_ops_run_ok ops1 init_world init_run_ok))).
Qed.

(** X15. Resolution is final once it has found a group or raised: along
    any run on a new service, an asset that resolves to a group resolves
    to the same group after any further operations, and an asset on which
    resolution raises makes it raise for ever after. So a payload for
    which [create_asset] raises is refused by every later [create_asset]
    on that service. *)
Theorem resolution_is_final (ops1 ops2 : list Op) (asset : Asset.t) :
  let w1 := run_ops now_at uuid4_at ops1 init_world in
  let w2 := run_ops now_at uuid4_at ops2 w1 in
  (forall g, _evaluate_rules (rules (service w1)) asset = Ok (Some g) ->
             _evaluate_rules (rules (service w2)) asset = Ok (Some g))
  /\ (forall e, _evaluate_rules (rules (service w1)) asset = Raise e ->
                _evaluate_rules (rules (service w2)) asset = Raise e)
  /\ (forall e, snd (create_asset now_at uuid4_at asset w1) = Raise e ->
                snd (create_asset now_at uuid4_at asset w2) = Raise e).
Proof.
  intros w1 w2.
  destruct (run_ops_rules ops2 w1
              (proj1 (proj2 (run_ops_run_ok ops1 init_world init_run_ok))))
    as (added & Hadded & _).
  fold w2 in Hadded.
  assert (Hsome : forall g, _evaluate_rules (rules (service w1)) asset = Ok (Some g) ->
                            _evaluate_rules (rules (service w2)) asset = Ok (Some g)).
  { intros g H. rewrite Hadded, evaluate_rules_more_rules, H. reflexivity. }
  assert (Hraise : forall e, _evaluate_rules (rules (service w1)) asset = Raise e ->
                             _evaluate_rules (rules (service w2)) asset = Raise e).
  { intros e H. rewrite Hadded, evaluate_rules_more_rules, H. reflexivity. }
  split; [exact Hsome|]. split; [exact Hraise|].
  intros e. rewrite !create_asset_eq. cbv zeta. rewrite !evaluate_rules_new_asset.
  destruct (_evaluate_rules (rules (service w1)) asset) as [g|e1] eqn:E1;
    [discriminate|].
  rewrite (Hraise e1 eq_refl). exact (fun H => H).
Qed.

(** X16. Along any run on a new service, every stored asset carries the
    identifier it is stored under and its group name, when it has one, is
    the group name of a stored rule; every stored rule carries the
    identifier it is stored under and has the [updated_at] it was created
    with. *)
Theorem stored_records_invariant (ops : list Op) :
  let w := run_ops now_at uuid4_at ops init_world in
  (forall k a,
      In (k, a) (assets (service w)) ->
      Asset.id a = Some k
      /\ forall g, Asset.group_name a = Some g ->
                   exists k' r, In (k', r) (rules (service w))
                                /\ GroupingRule.group_name r = g)
  /\ (forall k r,
         In (k, r) (rules (service w)) ->
         GroupingRule.id r = Some k
         /\ GroupingRule.updated_at r = GroupingRule.created_at r).
Proof.
  intros w. destruct (run_ops_run_ok ops init_world init_run_ok) as (_ & Hrules & Hassets).
  split; [exact Hassets|]. intros k r Hin. exact (proj2 (Hrules k r Hin)).
Qed.

End Runs.

(** * Properties of the request handlers *)

(** X17. [POST /assets] never lets an exception of the service through: it
    returns the created asset, which is then stored under the identifier
    just drawn, or it raises an [HTTPException] with status 400, which it
    does exactly when resolution raises on the payload; in that case the
    caught exception is a [TypeError] and both mappings are as they
    were. *)
Theorem post_assets_returns_or_400 (now_at : nat -> Z) (uuid4_at : nat -> string)
  (w : World) (asset : Asset.t) :
  let res := routes.create_asset now_at uuid4_at asset w in
  ((exists created,
       snd res = Returned created
       /\ dict_get (uuid4_at (uuid_reads w)) (assets (service (fst res))) = Some created)
   \/ (snd res = HTTPException 400 (DetailOfException TypeError)
       /\ service (fst res) = service w))
  /\ ((exists e, _evaluate_rules (rules (service w)) asset = Raise e)
      <-> snd res = HTTPException 400 (DetailOfException TypeError)).
Proof.
  cbv zeta. unfold routes.create_asset. rewrite create_asset_eq. cbv zeta.
  rewrite evaluate_rules_new_asset.
  destruct (_evaluate_rules (rules (service w)) asset) as [g|e] eqn:Ev; simpl.
  - split.
    + left. eexists. split; [reflexivity | apply dict_get_set_same].
    + split; [intros [e H]; discriminate | discriminate].
  - rewrite (evaluate_rules_raise_TypeError _ _ _ Ev). split.
    + right. split; reflexivity.
    + split; [reflexivity | intros _; exists TypeError; reflexivity].
Qed.

Lemma create_rule_outcome (now_at : nat -> Z) (uuid4_at : nat -> string)
  (rule : GroupingRule.t) (w : World) :
  snd (create_rule now_at uuid4_at rule w)
  = Ok (new_rule_of rule (uuid4_at (uuid_reads w)) (now_at (clock_reads w)))
  \/ snd (create_rule now_at uuid4_at rule w) = Raise TypeError.
Proof.
  rewrite create_rule_eq. cbv zeta.
  destruct (_process_existing_assets now_at _) as [w2 [u|e]] eqn:E.
  - left. reflexivity.
  - right. simpl. f_equal. apply (f_equal snd) in E. simpl in E.
    exact (process_assets_loop_raise_TypeError _ _ _ _ _ E).
Qed.

(** X18. [POST /rules] returns the created rule or raises an
    [HTTPException] with status 400 for a [TypeError] of the reprocessing
    pass, and in both cases the rule is in the rule mapping afterwards: an
    answer 400 does not mean that the rule was refused. *)
Theorem post_rules_400_keeps_rule (now_at : nat -> Z) (uuid4_at : nat -> string)
  (w : World) (rule : GroupingRule.t) :
  let res := routes.create_rule now_at uuid4_at rule w in
  let rule_id := uuid4_at (uuid_reads w) in
  let new_rule := new_rule_of rule rule_id (now_at (clock_reads w)) in
  (snd res = Returned new_rule
   \/ snd res = HTTPException 400 (DetailOfException TypeError))
  /\ dict_get rule_id (rules (service (fst res))) = Some new_rule.
Proof.
  cbv zeta. unfold routes.create_rule.
  pose proof (create_rule_rules now_at uuid4_at rule w) as Hrules.
  pose proof (create_rule_outcome now_at uuid4_at rule w) as Hout.
  destruct (create_rule now_at uuid4_at rule w) as [w' [r|e]]; simpl in *.
  - destruct Hout as [Hout|Hout]; [|discriminate]. injection Hout as ->.
    split; [left; reflexivity|]. rewrite Hrules. apply dict_get_set_same.
  - destruct Hout as [Hout|Hout]; [discriminate|]. injection Hout as ->.
    split; [right; reflexivity|]. rewrite Hrules. apply dict_get_set_same.
Qed.

(** X19. [PATCH /rules/{rule_id}] never returns a rule. For an identifier
    that is not in the rule mapping it raises an [HTTPException] with
    status 404 and leaves the store as it is; for one that is, it lets the
    [TypeError] of [update_rule] through and both mappings are as they
    were. *)
Theorem patch_rules_never_returns (now_at : nat -> Z) (w : World) (rule_id : string)
  (rule : GroupingRule.t) :
  let res := routes.update_rule now_at rule_id rule w in
  (dict_get rule_id (rules (service w)) = None ->
   res = (w, HTTPException 404
               (DetailText ("Rule with ID " ++ rule_id ++ " not found")%string)))
  /\ (forall current,
         dict_get rule_id (rules (service w)) = Some current ->
         snd res = Propagated TypeError /\ service (fst res) = service w)
  /\ (forall r, snd res <> Returned r).
Proof.
  cbv zeta. unfold routes.update_rule. rewrite update_rule_eq.
  destruct (dict_get rule_id (rules (service w))) as [current|].
  - destruct (GroupingRule_model_dump _ _ _); simpl;
      (split; [discriminate|]); (split; [intros c _; split; reflexivity | discriminate]).
  - simpl. split; [reflexivity|]. split; [discriminate | discriminate].
Qed.

(** X20. The two handlers on one asset answer 404 exactly for an
    identifier that is not in the asset mapping, and then leave the store
    as it is. For one that is, [GET /assets/{asset_id}] returns the stored
    asset without touching the store, and [PATCH /assets/{asset_id}]
    either returns the updated asset, which is then the one stored, or
    lets a [TypeError] of resolution through with the asset mapping as it
    was; unlike [POST /assets] it does not turn it into an answer 400. *)
Theorem asset_handlers_404_iff_absent (now_at : nat -> Z) (w : World)
  (asset_id : string) (asset : Asset.t) :
  let not_found :=
    HTTPException 404
      (DetailText ("Asset with ID " ++ asset_id ++ " not found")%string) in
  let got := routes.get_asset asset_id w in
  let patched := routes.update_asset now_at asset_id asset w in
  fst got = w
  /\ (dict_get asset_id (assets (service w)) = None <-> snd got = not_found)
  /\ (dict_get asset_id (assets (service w)) = None <-> snd patched = not_found)
  /\ (snd patched = not_found -> fst patched = w)
  /\ (forall current,
         dict_get asset_id (assets (service w)) = Some current ->
         snd got = Returned current
         /\ ((exists updated,
                 snd patched = Returned updated
                 /\ dict_get asset_id (assets (service (fst patched))) = Some updated)
             \/ (snd patched = Propagated TypeError
                 /\ assets (service (fst patched)) = assets (service w)))).
Proof.
  cbv zeta. unfold routes.get_asset, routes.update_asset. rewrite update_asset_eq.
  unfold get_asset, bind, get_self, ret. cbn.
  destruct (dict_get asset_id (assets (service w))) as [current|] eqn:Hget; cbn.
  - cbv zeta. destruct (_evaluate_rules _ _) as [g|e] eqn:Ev; cbn.
    + split; [reflexivity|]. split; [split; discriminate|].
      split; [split; discriminate|]. split; [discriminate|].
      intros c Hc. injection Hc as <-. split; [reflexivity|]. left.
      eexists. split; [reflexivity | apply dict_get_set_same].
    + rewrite (evaluate_rules_raise_TypeError _ _ _ Ev).
      split; [reflexivity|]. split; [split; discriminate|].
      split; [split; discriminate|]. split; [discriminate|].
      intros c Hc. injection Hc as <-. split; [reflexivity|]. right.
      split; reflexivity.
  - split; [reflexivity|]. split; [split; reflexivity|].
    split; [split; reflexivity|]. split; [reflexivity | discriminate].
Qed.

(** * The further properties on the sample data *)

Lemma evaluation_reads_name_type_tags_witness :
  _evaluate_rules (rules (service world_rule_then_asset)) sample_asset
  = _evaluate_rules (rules (service world_rule_then_asset)) shuffled_asset
  /\ _evaluate_rules (rules (service world_rule_then_asset)) shuffled_asset
     = Ok (Some "production-instances").
Proof.
  split; [|reflexivity].
  apply (evaluation_reads_name_type_tags sample_asset shuffled_asset);
    [reflexivity | reflexivity | apply perm_swap].
Defined.

Lemma equals_match_implies_weaker_match_witness :
  _evaluate_condition sample_asset
    (GroupingCondition.Build "type" CONTAINS (Some "ec2-instance") None None) = Ok true
  /\ _evaluate_condition sample_asset
       (GroupingCondition.Build "tag" EXISTS None (Some "env") (Some "prod")) = Ok true.
Proof.
  split.
  - apply (equals_match_implies_weaker_match sample_asset "type"
             (Some "ec2-instance") None None); [reflexivity | discriminate].
  - apply (equals_match_implies_weaker_match sample_asset "tag"
             None (Some "env") (Some "prod")); reflexivity.
Defined.

Lemma contains_matches_with_every_part_witness :
  _evaluate_condition sample_asset
    (GroupingCondition.Build "name" CONTAINS (Some "pro") None None) = Ok true
  /\ _evaluate_condition sample_asset
       (GroupingCondition.Build "name" CONTAINS (Some "") None None) = Ok true.
Proof.
  destruct (contains_matches_with_every_part sample_asset "name" None None
              (or_intror eq_refl)) as [T1 T2].
  split; [|exact T2].
  apply (T1 "pro" "prod"); [reflexivity|].
  exists "", "d". reflexivity.
Defined.

Lemma create_asset_then_get_asset_witness :
  exists w' created,
    create_asset sample_now sample_uuid sample_asset world_rule_then_asset
    = (w', Ok created)
    /\ Asset.id created = Some "bba"
    /\ Asset.group_name created = Some "production-instances"
    /\ routes.get_asset "bba" w' = (w', Returned created).
Proof.
  destruct (create_asset sample_now sample_uuid sample_asset world_rule_then_asset)
    as [w' [created|e]] eqn:E; [|vm_compute in E; discriminate].
  exists w', created. split; [reflexivity|].
  destruct (create_asset_then_get_asset sample_now sample_uuid world_rule_then_asset
              w' sample_asset created E) as (_ & Hid & _ & _ & _ & _ & Hroute).
  split; [exact Hid|]. split; [|exact Hroute].
  vm_compute in E. injection E as _ <-. reflexivity.
Defined.

Lemma create_asset_groups_by_first_match_witness :
  (exists w' created,
      create_asset sample_now sample_uuid sample_asset world_rule_then_asset
      = (w', Ok created)
      /\ Asset.group_name created = Some "production-instances"
      /\ dict_get "bba" (assets (service w')) = Some created)
  /\ (exists w' created,
         create_asset sample_now sample_uuid database_payload world_rule_then_asset
         = (w', Ok created)
         /\ Asset.group_name created = None
         /\ dict_get "bba" (assets (service w')) = Some created).
Proof.
  split.
  - apply (proj1 (create_asset_groups_by_first_match sample_now sample_uuid
                    world_rule_then_asset sample_asset)
             [] (new_rule_of sample_rule "a" (sample_now 0)) []);
      [reflexivity | constructor | reflexivity | discriminate].
  - apply (proj2 (create_asset_groups_by_first_match sample_now sample_uuid
                    world_rule_then_asset database_payload)).
    repeat constructor.
Defined.

Lemma payload_internal_fields_ignored_witness :
  create_asset sample_now sample_uuid sample_asset world_rule_then_asset
  = create_asset sample_now sample_uuid stamped_asset_payload world_rule_then_asset
  /\ update_asset sample_now "ba" sample_asset world_rule_then_asset
     = update_asset sample_now "ba" stamped_asset_payload world_rule_then_asset
  /\ create_rule sample_now sample_uuid sample_rule world_rule_then_asset
     = create_rule sample_now sample_uuid stamped_rule_payload world_rule_then_asset.
Proof.
  destruct (payload_internal_fields_ignored sample_now sample_uuid
              world_rule_then_asset) as [Tasset Trule].
  destruct (Tasset sample_asset stamped_asset_payload) as [T1 T2].
  { unfold same_descriptive_fields. simpl. tauto. }
  split; [exact T1|]. split; [exact (T2 "ba")|].
  apply Trule; reflexivity.
Defined.

Lemma create_asset_frame_witness :
  snd (create_asset sample_now sample_uuid sample_asset world_valueless_rule)
  = Raise TypeError
  /\ assets (service (fst (create_asset sample_now sample_uuid sample_asset
                             world_valueless_rule)))
     = assets (service world_valueless_rule)
  /\ exists created,
       assets (service (fst (create_asset sample_now sample_uuid sample_asset
                               world_rule_then_asset)))
       = assets (service world_rule_then_asset) ++ [("bba", created)].
Proof.
  destruct (create_asset_frame sample_now sample_uuid world_valueless_rule sample_asset)
    as (_ & _ & _ & _ & Traise & _).
  destruct (create_asset_frame sample_now sample_uuid world_rule_then_asset sample_asset)
    as (_ & _ & _ & _ & _ & Tok).
  split; [reflexivity|]. split; [exact (proj2 (Traise TypeError eq_refl))|].
  eexists. apply Tok; reflexivity.
Defined.

Lemma update_asset_frame_witness :
  dict_keys (assets (service (fst (update_asset sample_now "ba" database_payload
                                     world_rule_then_asset))))
  = ["ba"]
  /\ snd (update_asset sample_now "a" database_payload world_valueless_rule)
     = Raise TypeError
  /\ assets (service (fst (update_asset sample_now "a" database_payload
                             world_valueless_rule)))
     = assets (service world_valueless_rule).
Proof.
  destruct (update_asset_frame sample_now world_rule_then_asset "ba" database_payload)
    as (_ & _ & Tkeys & _).
  destruct (update_asset_frame sample_now world_valueless_rule "a" database_payload)
    as (_ & _ & _ & _ & Traise).
  split; [rewrite Tkeys; reflexivity|]. split; [reflexivity|].
  exact (proj1 (proj2 (Traise TypeError eq_refl))).
Defined.

Lemma create_rule_stores_rule_first_witness :
  snd (create_rule sample_now sample_uuid valueless_rule world_asset_only)
  = Raise TypeError
  /\ dict_get "ba" (rules (service (fst (create_rule sample_now sample_uuid
                                          valueless_rule world_asset_only))))
     = Some (new_rule_of valueless_rule "ba" (sample_now 1))
  /\ rules (service (fst (create_rule sample_now sample_uuid valueless_rule
                            world_asset_only)))
     = rules (service world_asset_only)
       ++ [("ba", new_rule_of valueless_rule "ba" (sample_now 1))].
Proof.
  destruct (create_rule_stores_rule_first sample_now sample_uuid world_asset_only
              valueless_rule) as (Tget & _ & Tfresh & _).
  split; [reflexivity|]. split; [exact Tget|]. apply Tfresh. reflexivity.
Defined.

Lemma pass_only_groups_ungrouped_witness :
  exists a',
    dict_get "k" (assets (service (fst (_process_existing_assets sample_now
                                          world_blank_group))))
    = Some a'
    /\ same_descriptive_fields a' blank_group_asset
    /\ Asset.group_name a' = Some "everything".
Proof.
  destruct (pass_only_groups_ungrouped sample_now world_blank_group "k"
              blank_group_asset eq_refl) as (_ & _ & _ & a' & Hget & Hsame & _).
  exists a'. split; [exact Hget|]. split; [exact Hsame|].
  vm_compute in Hget. injection Hget as <-. reflexivity.
Defined.

Lemma pass_leaves_nothing_to_group_witness :
  let a' := new_asset_of sample_asset "ba" (sample_now 1) in
  In ("ba", a') (assets (service (fst (_process_existing_assets sample_now
                                         world_empty_rule))))
  /\ (truthy (Asset.group_name a') = true
      \/ exists g, _evaluate_rules (rules (service world_empty_rule)) a' = Ok g
                   /\ truthy g = false).
Proof.
  cbv zeta. split; [left; reflexivity|].
  apply (pass_leaves_nothing_to_group sample_now world_empty_rule "ba"
           (new_asset_of sample_asset "ba" (sample_now 1)));
    [reflexivity | left; reflexivity].
Defined.

Lemma grouped_asset_sticks_witness :
  let ops1 := [OpCreateRule bucket_rule; OpCreateRule sample_rule;
               OpCreateAsset sample_asset] in
  let ops2 := [OpCreateRule catch_all_rule; OpUpdateAsset "zz" database_payload;
               OpCreateAsset database_payload; OpReprocess] in
  let w1 := run_ops sample_now sample_uuid ops1 init_world in
  exists a,
    dict_get "bba" (assets (service w1)) = Some a
    /\ Asset.group_name a = Some "production-instances"
    /\ dict_get "bba" (assets (service (run_ops sample_now sample_uuid ops2 w1)))
       = Some a.
Proof.
  cbv zeta. eexists. split; [vm_compute; reflexivity|]. split; [reflexivity|].
  apply (grouped_asset_sticks sample_now sample_uuid sample_uuid_inj
           [OpCreateRule bucket_rule; OpCreateRule sample_rule;
            OpCreateAsset sample_asset]
           [OpCreateRule catch_all_rule; OpUpdateAsset "zz" database_payload;
            OpCreateAsset database_payload; OpReprocess]
           "bba").
  - repeat constructor. discriminate.
  - reflexivity.
  - reflexivity.
Defined.

Lemma rules_only_grow_witness :
  let ops1 := [OpCreateAsset sample_asset; OpCreateRule valueless_rule] in
  let ops2 := [OpCreateRule sample_rule; OpUpdateRule "ba" sample_rule;
               OpCreateAsset sample_asset] in
  let w1 := run_ops sample_now sample_uuid ops1 init_world in
  let w2 := run_ops sample_now sample_uuid ops2 w1 in
  List.length (rules (service w1)) = 1
  /\ exists added,
       rules (service w2) = rules (service w1) ++ added /\ List.length added = 1.
Proof.
  exact (rules_only_grow sample_now sample_uuid sample_uuid_inj
           [OpCreateAsset sample_asset; OpCreateRule valueless_rule]
           [OpCreateRule sample_rule; OpUpdateRule "ba" sample_rule;
            OpCreateAsset sample_asset]).
Defined.

Lemma resolution_is_final_witness :
  let ops2 := [OpCreateRule catch_all_rule; OpUpdateRule "ba" sample_rule;
               OpReprocess] in
  let w2 := run_ops sample_now sample_uuid ops2 world_valueless_rule in
  snd (create_asset sample_now sample_uuid sample_asset world_valueless_rule)
  = Raise TypeError
  /\ snd (create_asset sample_now sample_uuid sample_asset w2) = Raise TypeError.
Proof.
  cbv zeta. split; [reflexivity|].
  apply (resolution_is_final sample_now sample_uuid sample_uuid_inj
           [OpCreateAsset sample_asset; OpCreateRule valueless_rule]
           [OpCreateRule catch_all_rule; OpUpdateRule "ba" sample_rule; OpReprocess]
           sample_asset).
  reflexivity.
Defined.

Lemma stored_records_invariant_witness :
  let a := Asset.set_group_name (Some "production-instances")
             (new_asset_of sample_asset "ba" (sample_now 1)) in
  In ("ba", a) (assets (service world_rule_then_asset))
  /\ Asset.id a = Some "ba"
  /\ exists k' r, In (k', r) (rules (service world_rule_then_asset))
                  /\ GroupingRule.group_name r = "production-instances".
Proof.
  cbv zeta.
  destruct (proj1 (stored_records_invariant sample_now sample_uuid sample_uuid_inj
                     [OpCreateRule sample_rule; OpCreateAsset sample_asset])
              "ba"
              (Asset.set_group_name (Some "production-instances")
                 (new_asset_of sample_asset "ba" (sample_now 1))))
    as [Hid Hgroup].
  - left. reflexivity.
  - split; [left; reflexivity|]. split; [exact Hid|]. apply Hgroup. reflexivity.
Defined.

Lemma post_assets_returns_or_400_witness :
  snd (routes.create_asset sample_now sample_uuid sample_asset world_valueless_rule)
  = HTTPException 400 (DetailOfException TypeError).
Proof.
  apply (post_assets_returns_or_400 sample_now sample_uuid world_valueless_rule
           sample_asset).
  exists TypeError. reflexivity.
Defined.

Lemma post_rules_400_keeps_rule_witness :
  snd (routes.create_rule sample_now sample_uuid valueless_rule world_asset_only)
  = HTTPException 400 (DetailOfException TypeError)
  /\ dict_get "ba" (rules (service (fst (routes.create_rule sample_now sample_uuid
                                          valueless_rule world_asset_only))))
     = Some (new_rule_of valueless_rule "ba" (sample_now 1)).
Proof.
  split; [reflexivity|].
  exact (proj2 (post_rules_400_keeps_rule sample_now sample_uuid world_asset_only
                  valueless_rule)).
Defined.

Lemma patch_rules_never_returns_witness :
  routes.update_rule sample_now "zz" sample_rule world_rule_then_asset
  = (world_rule_then_asset,
     HTTPException 404 (DetailText "Rule with ID zz not found"))
  /\ snd (routes.update_rule sample_now "a" sample_rule world_rule_then_asset)
     = Propagated TypeError.
Proof.
  split.
  - apply (patch_rules_never_returns sample_now world_rule_then_asset "zz" sample_rule).
    reflexivity.
  - eapply (patch_rules_never_returns sample_now world_rule_then_asset "a" sample_rule).
    vm_compute. reflexivity.
Defined.

Lemma asset_handlers_404_iff_absent_witness :
  snd (routes.get_asset "zz" world_rule_then_asset)
  = HTTPException 404 (DetailText "Asset with ID zz not found")
  /\ snd (routes.update_asset sample_now "zz" database_payload world_rule_then_asset)
     = HTTPException 404 (DetailText "Asset with ID zz not found")
  /\ exists current,
       snd (routes.get_asset "ba" world_rule_then_asset) = Returned current
       /\ Asset.group_name current = Some "production-instances".
Proof.
  destruct (asset_handlers_404_iff_absent sample_now world_rule_then_asset "zz"
              database_payload) as (_ & Tget & Tpatch & _).
  split; [apply Tget; reflexivity|]. split; [apply Tpatch; reflexivity|].
  destruct (asset_handlers_404_iff_absent sample_now world_rule_then_asset "ba"
              database_payload) as (_ & _ & _ & _ & Tpresent).
  eexists. split; [eapply Tpresent; vm_compute; reflexivity | reflexivity].
Defined.
